(** * Date-range filter and per-day count of the "Explorador de Registros" tab

    Shallow embedding of the table logic of [app.py] (lines 104-123): the
    frame fetched with [pd.read_sql] is normalised on its [created_at]
    column, masked by the two sidebar dates, and counted per calendar day.

    The pandas operations the script calls are embedded one definition per
    call ([getitem], [to_datetime], [setitem], [dt_date], [ge_scalar],
    [le_scalar], [mask_and], [loc], [groupby_size]); the script itself is
    [df_filtered], [daily_counts], [evolucion_de_registros] and
    [explorador_de_registros]. *)

From stdpp Require Import base option list gmap strings pretty fin_maps sorting.
From Stdlib Require Import ZArith Ascii Lia.

Local Open Scope Z_scope.

(** ** Exceptions and fallible computations *)

(** The Python exceptions the modelled calls can raise. *)
Inductive exn : Set :=
  | KeyError
  | TypeError
  | ValueError
  | DateParseError
  | OutOfBoundsDatetime
  | AttributeError
  | IndexingError.

Inductive result (A : Type) : Type :=
  | Ok (a : A)
  | Raised (e : exn).
Arguments Ok {A} a.
Arguments Raised {A} e.

#[global] Instance exn_eq_dec : EqDecision exn.
Proof. solve_decision. Defined.

#[global] Instance result_ret : MRet result := fun A a => Ok a.
#[global] Instance result_bind : MBind result := fun A B f m =>
  match m with
  | Ok a => f a
  | Raised e => Raised e
  end.
#[global] Instance result_fmap : FMap result := fun A B f m =>
  match m with
  | Ok a => Ok (f a)
  | Raised e => Raised e
  end.

(** Element-wise fallible traversal: stops at the first element that raises. *)
Fixpoint traverse {A B : Type} (f : A → result B) (l : list A) : result (list B) :=
  match l with
  | [] => Ok []
  | x :: l' => y ← f x; ys ← traverse f l'; Ok (y :: ys)
  end.

(** ** Calendar dates and timestamps *)

(** A [datetime.date] is represented by its proleptic Gregorian ordinal
    ([date.toordinal()]): the order of ordinals is the order of dates. *)
Definition is_leap (y : Z) : bool :=
  (y mod 4 =? 0) && (negb (y mod 100 =? 0) || (y mod 400 =? 0)).

Definition days_before_year (y : Z) : Z :=
  let p := y - 1 in p * 365 + p / 4 - p / 100 + p / 400.

Definition days_in_month (y m : Z) : Z :=
  if m =? 2 then (if is_leap y then 29 else 28)
  else if (m =? 4) || (m =? 6) || (m =? 9) || (m =? 11) then 30
  else 31.

Definition days_before_month (y m : Z) : Z :=
  foldr Z.add 0 (days_in_month y <$> seqZ 1 (m - 1)).

Definition ymd (y m d : Z) : Z :=
  days_before_year y + days_before_month y m + d.

(** Ordinal of 1970-01-01, the epoch of integer timestamps. *)
Definition epoch_ordinal : Z := 719163.
Definition ns_per_day : Z := 86400000000000.

(** A timestamp as pandas holds it: the wall-clock calendar date, the
    wall-clock time of day in nanoseconds, and the timezone the value is
    localised in ([None] for a naive timestamp). *)
Record Timestamp : Set := mkTimestamp {
  ts_date : Z;
  ts_time : Z;
  ts_tz : option Z
}.

#[global] Instance Timestamp_eq_dec : EqDecision Timestamp.
Proof. solve_decision. Defined.

(** ** Cell values, records and frames *)

(** The values a cell of a fetched table can hold.  [VNone] is the missing
    value of an object or numeric column ([None], [NaN]); [VNaT] is the
    missing value of a datetime column.  Floating-point cells other than
    [NaN] are not represented. *)
Inductive value : Set :=
  | VNone
  | VNaT
  | VTimestamp (t : Timestamp)
  | VDate (d : Z)
  | VInt (n : Z)
  | VBool (b : bool)
  | VStr (s : string).

#[global] Instance value_eq_dec : EqDecision value.
Proof. solve_decision. Defined.

(** A frame: its column labels and its rows in storage order.  A row maps
    column names to cells; a name missing from a row reads as [VNone].
    Rows are identified by position (the default [RangeIndex]). *)
Record DataFrame : Type := mkDataFrame {
  columns : list string;
  rows : list (gmap string value)
}.

Definition cell (c : string) (r : gmap string value) : value :=
  default VNone (r !! c).

(** [c in df.columns] *)
Definition has_column (c : string) (df : DataFrame) : bool :=
  bool_decide (c ∈ columns df).

(** [len(df)] *)
Definition len (df : DataFrame) : nat := length (rows df).

(** [df.empty]: true when either axis has length zero. *)
Definition empty (df : DataFrame) : bool :=
  match rows df, columns df with
  | [], _ => true
  | _, [] => true
  | _, _ => false
  end.

(** [df[c]] *)
Definition getitem (df : DataFrame) (c : string) : result (list value) :=
  if has_column c df then Ok (cell c <$> rows df) else Raised KeyError.

(** [df[c] = s]: the series is aligned with the frame by row position; a
    position the series does not cover receives the missing value.  A new
    label is appended to the columns. *)
Definition setitem (df : DataFrame) (c : string) (s : list value) : DataFrame :=
  {| columns := if has_column c df then columns df else columns df ++ [c];
     rows := imap (fun i r => <[c := default VNone (s !! i)]> r) (rows df) |}.

(** ** [pd.to_datetime] on a series *)

(** What pandas delegates to its string routines and to dateutil, none of
    which belongs to this repository.  [guess_datetime_format s] is the
    format pandas reads off a string ([None]: no format recognised);
    [strptime fmt s] reads [s] under the format [fmt] ([None]: [s] does not
    match the format); [parse_datetime_string s] reads one string on its
    own ([None]: not a date).  What these do with the strings [now] and
    [today] is theirs to say. *)
Record DateParser : Type := mkDateParser {
  guess_datetime_format : string → option string;
  strptime : string → string → option Timestamp;
  parse_datetime_string : string → option Timestamp
}.

(** The strings read as a missing value. *)
Definition nat_strings : list string :=
  ["NaT"; "nat"; "NAT"; "nan"; "NaN"; "NAN"]%string.

Definition is_nat_string (s : string) : bool :=
  bool_decide (s = ""%string) || bool_decide (s ∈ nat_strings).

(** The cells the search for a first value passes over: missing values
    and the strings that do not show a format. *)
Definition is_null (v : value) : bool :=
  match v with
  | VNone | VNaT => true
  | VStr s => is_nat_string s || bool_decide (s ∈ ["now"; "today"]%string)
  | _ => false
  end.

(** The first cell of a series that is not passed over, if any. *)
Definition first_non_null (s : list value) : option value :=
  head (List.filter (fun v => negb (is_null v)) s).

(** [str(n)], [str(b)] *)
Definition str_int (n : Z) : string := pretty n.
Definition str_bool (b : bool) : string := if b then "True"%string else "False"%string.

Section Normalisation.

Variable parse : DateParser.

Definition min_int64 : Z := - 2 ^ 63.
Definition max_int64 : Z := 2 ^ 63 - 1.

(** The format of a column: the one guessed from its first value, when
    that value is a string; it then holds for the whole column. *)
Definition inferred_format (s : list value) : option string :=
  match first_non_null s with
  | Some (VStr first) => guess_datetime_format parse first
  | _ => None
  end.

(** Conversion of one cell of a column of format [fmt].

    Without a format every cell is converted on its own: integers are
    nanoseconds since the epoch (the smallest 64-bit integer being the
    missing value), booleans are not convertible, a string that is not a
    date is a [DateParseError].

    With a format, every string must match it, and so must the text of an
    integer or of a boolean: what does not match is a [ValueError].
    Timestamps and dates pass as they are. *)
Definition to_datetime_scalar (fmt : option string) (v : value)
  : result (option Timestamp) :=
  let matching (f text : string) : result (option Timestamp) :=
    match strptime parse f text with
    | Some t => Ok (Some t)
    | None => Raised ValueError
    end in
  match v with
  | VNone | VNaT => Ok None
  | VTimestamp t => Ok (Some t)
  | VDate d => Ok (Some (mkTimestamp d 0 None))
  | VInt n =>
      if n =? min_int64 then Ok None
      else
        match fmt with
        | Some f => matching f (str_int n)
        | None =>
            if (min_int64 <? n) && (n <=? max_int64) then
              Ok (Some (mkTimestamp (epoch_ordinal + n / ns_per_day) (n mod ns_per_day) None))
            else Raised OutOfBoundsDatetime
        end
  | VBool b =>
      match fmt with
      | Some f => matching f (str_bool b)
      | None => Raised TypeError
      end
  | VStr s =>
      if is_nat_string s then Ok None
      else
        match fmt with
        | Some f => matching f s
        | None =>
            match parse_datetime_string parse s with
            | Some t => Ok (Some t)
            | None => Raised DateParseError
            end
        end
  end.

(** A column mixing timezones (or aware and naive values) is rejected. *)
Definition same_tz (l : list (option Timestamp)) : bool :=
  match omap id l with
  | [] => true
  | t :: ts => forallb (fun u => bool_decide (ts_tz u = ts_tz t)) ts
  end.

Definition box (o : option Timestamp) : value :=
  match o with
  | Some t => VTimestamp t
  | None => VNaT
  end.

Definition to_datetime (s : list value) : result (list value) :=
  conv ← traverse (to_datetime_scalar (inferred_format s)) s;
  if same_tz conv then Ok (box <$> conv) else Raised ValueError.

End Normalisation.

(** ** The [.dt.date] accessor, comparisons, masks *)

Definition dt_date_scalar (v : value) : result (option Z) :=
  match v with
  | VTimestamp t => Ok (Some (ts_date t))
  | VNaT => Ok None
  | _ => Raised AttributeError
  end.

(** [s.dt.date]: only a datetime column has the accessor. *)
Definition dt_date (s : list value) : result (list (option Z)) :=
  traverse dt_date_scalar s.

(** A series of dates that has entries, all of them missing: pandas holds
    it as a datetime series, not as a series of [datetime.date]. *)
Definition all_missing (s : list (option Z)) : bool :=
  match s with
  | [] => false
  | _ => forallb (fun o => bool_decide (o = None)) s
  end.

(** [s >= d] and [s <= d] against a [datetime.date]: a missing entry
    compares false; a series held as a datetime series does not compare
    with a date at all. *)
Definition ge_scalar (s : list (option Z)) (d : Z) : result (list bool) :=
  if all_missing s then Raised TypeError
  else Ok ((fun o => match o with Some x => d <=? x | None => false end) <$> s).

Definition le_scalar (s : list (option Z)) (d : Z) : result (list bool) :=
  if all_missing s then Raised TypeError
  else Ok ((fun o => match o with Some x => x <=? d | None => false end) <$> s).

(** [m1 & m2] *)
Definition mask_and (m1 m2 : list bool) : list bool := zip_with andb m1 m2.

Fixpoint compress {A : Type} (mask : list bool) (l : list A) : list A :=
  match mask, l with
  | b :: mask', x :: l' => if b then x :: compress mask' l' else compress mask' l'
  | _, _ => []
  end.

(** [df.loc[mask]] with a boolean mask: rows whose entry is true, in
    order; a mask of another length cannot be aligned. *)
Definition loc (df : DataFrame) (mask : list bool) : result DataFrame :=
  if bool_decide (length mask = length (rows df)) then
    Ok {| columns := columns df; rows := compress mask (rows df) |}
  else Raised IndexingError.

(** ** [groupby(key).size()] *)

(** One more occurrence of [d] in a histogram kept ascending by date. *)
Fixpoint bump (d : Z) (h : list (Z * nat)) : list (Z * nat) :=
  match h with
  | [] => [(d, 1%nat)]
  | (k, n) :: h' =>
      if d <? k then (d, 1%nat) :: h
      else if d =? k then (k, S n) :: h'
      else (k, n) :: bump d h'
  end.

(** Group sizes by key, keys ascending; missing keys form no group. *)
Definition groupby_size (keys : list (option Z)) : list (Z * nat) :=
  foldr (fun o h => match o with Some d => bump d h | None => h end) [] keys.

(** ** The script *)

Definition created_at : string := "created_at".

Section Script.

Variable parse : DateParser.

(** Lines 106-108.  The first component is [df] as the assignment of
    line 106 leaves it, the second is [df_filtered]. *)
Definition df_filtered (col : string) (df : DataFrame) (start_date end_date : Z)
  : result (DataFrame * DataFrame) :=
  raw ← getitem df col;
  conv ← to_datetime parse raw;
  let df := setitem df col conv in
  lo ← getitem df col ≫= dt_date;
  ge ← ge_scalar lo start_date;
  hi ← getitem df col ≫= dt_date;
  le ← le_scalar hi end_date;
  let mask := mask_and ge le in
  out ← loc df mask;
  Ok (df, out).

(** Lines 114-115: the frame of columns [Fecha], [Registros], as the
    list of its rows. *)
Definition daily_counts (col : string) (df_filtered : DataFrame) : result (list (Z * nat)) :=
  keys ← getitem df_filtered col ≫= dt_date;
  Ok (groupby_size keys).

(** Lines 104-108 and 121-123: the table handed to [st.dataframe],
    together with [df] as the branch leaves it. *)
Definition filterByDateRange (col : string) (df : DataFrame) (start_date end_date : Z)
  : result (DataFrame * DataFrame) :=
  if has_column col df then df_filtered col df start_date end_date
  else Ok (df, df).

(** What the tab puts on the page. *)
Inductive widget : Type :=
  | info (shown : nat) (start_date end_date : Z)
  | subheader
  | bar_chart (data : list (Z * nat))
  | warning_no_records
  | warning_no_date_column
  | dataframe (df : DataFrame).

(** Lines 113-118: the chart of the counts per day, or the warning when
    the filtered table is empty (lines 114-115 are then not evaluated). *)
Definition evolucion_de_registros (col : string) (df_filtered : DataFrame)
  : result (list widget) :=
  if negb (empty df_filtered) then
    dc ← daily_counts col df_filtered;
    Ok [bar_chart dc]
  else
    Ok [warning_no_records].

(** Lines 104-123 for a fetched frame [df]. *)
Definition explorador_de_registros (df : DataFrame) (start_date end_date : Z)
  : result (list widget) :=
  if has_column created_at df then
    '(_, dff) ← df_filtered created_at df start_date end_date;
    chart ← evolucion_de_registros created_at dff;
    Ok ([info (len dff) start_date end_date; subheader] ++ chart ++ [dataframe dff])
  else
    Ok [warning_no_date_column; dataframe df].

End Script.

(** ** A concrete string parser for the examples: ISO 8601 *)

Definition digit (a : ascii) : option Z :=
  let n := Z.of_nat (nat_of_ascii a) in
  if (48 <=? n) && (n <=? 57) then Some (n - 48) else None.

Fixpoint number (acc : Z) (l : list ascii) : option Z :=
  match l with
  | [] => Some acc
  | a :: l' => d ← digit a; number (10 * acc + d) l'
  end.

Definition iso_date (y m d : list ascii) : option Z :=
  y ← number 0 y; m ← number 0 m; d ← number 0 d;
  if (1 <=? y) && (1 <=? m) && (m <=? 12) && (1 <=? d) && (d <=? days_in_month y m)
  then Some (ymd y m d) else None.

Definition iso_time (h m s : list ascii) : option Z :=
  h ← number 0 h; m ← number 0 m; s ← number 0 s;
  if (h <? 24) && (m <? 60) && (s <? 60)
  then Some ((h * 3600 + m * 60 + s) * 1000000000) else None.

Definition is_sep (a : ascii) : bool :=
  bool_decide (a = " "%char) || bool_decide (a = "T"%char).

(** [YYYY-MM-DD], optionally followed by a blank or [T] and [HH:MM:SS];
    the empty string and [NaT] read as the missing value. *)
Definition parse_iso (s : string) : option (option Timestamp) :=
  if bool_decide (s = ""%string) || bool_decide (s = "NaT"%string) then Some None
  else
    match String.list_ascii_of_string s with
    | [y1; y2; y3; y4; "-"; m1; m2; "-"; d1; d2]%char =>
        d ← iso_date [y1; y2; y3; y4] [m1; m2] [d1; d2];
        Some (Some (mkTimestamp d 0 None))
    | [y1; y2; y3; y4; "-"; m1; m2; "-"; d1; d2; sep; h1; h2; ":"; n1; n2; ":"; s1; s2]%char =>
        if is_sep sep then
          d ← iso_date [y1; y2; y3; y4] [m1; m2] [d1; d2];
          t ← iso_time [h1; h2] [n1; n2] [s1; s2];
          Some (Some (mkTimestamp d t None))
        else None
    | _ => None
    end.

(** The parameters of the conversion, for the examples: the three ISO
    shapes above, each with its format. *)
Definition iso_format (s : string) : option string :=
  match parse_iso s with
  | Some (Some _) =>
      match String.get 10 s with
      | None => Some "%Y-%m-%d"%string
      | Some sep =>
          if bool_decide (sep = "T"%char) then Some "%Y-%m-%dT%H:%M:%S"%string
          else Some "%Y-%m-%d %H:%M:%S"%string
      end
  | _ => None
  end.

Definition iso_datetime (s : string) : option Timestamp :=
  match parse_iso s with
  | Some (Some t) => Some t
  | _ => None
  end.

Definition iso_parser : DateParser :=
  {| guess_datetime_format := iso_format;
     strptime := fun fmt s =>
       if bool_decide (iso_format s = Some fmt) then iso_datetime s else None;
     parse_datetime_string := iso_datetime |}.

(** ** Vocabulary of the statements *)

Definition put (c : string) (r : gmap string value) (v : value) : gmap string value :=
  <[c := v]> r.

(** The calendar date [.dt.date] reads off a cell, when it has one. *)
Definition calendar_date (v : value) : option Z :=
  match v with
  | VTimestamp t => Some (ts_date t)
  | _ => None
  end.

(** [start_date <= d <= end_date], both bounds included; no date, no match. *)
Definition in_range (start_date end_date : Z) (o : option Z) : bool :=
  match o with
  | Some d => (start_date <=? d) && (d <=? end_date)
  | None => false
  end.

(** The test the mask applies to a row of the normalised frame. *)
Definition retained (col : string) (start_date end_date : Z) (r : gmap string value) : bool :=
  in_range start_date end_date (calendar_date (cell col r)).

(** Number of entries of a key series that carry the date [d]. *)
Definition occurrences (d : Z) (keys : list (option Z)) : nat :=
  length (List.filter (fun o => bool_decide (o = Some d)) keys).

(** Count recorded for [d] in a histogram (zero when [d] has no entry). *)
Fixpoint recorded (d : Z) (h : list (Z * nat)) : nat :=
  match h with
  | [] => 0
  | (k, n) :: h' => ((if (k =? d)%Z then n else 0) + recorded d h')%nat
  end.

(** Sum of the counts of a histogram. *)
Fixpoint total (h : list (Z * nat)) : nat :=
  match h with
  | [] => 0
  | (_, n) :: h' => (n + total h')%nat
  end.

(** All present timestamps of a series share one timezone. *)
Definition uniform_tz (ts : list (option Timestamp)) : Prop :=
  ∀ t u, Some t ∈ ts → Some u ∈ ts → ts_tz t = ts_tz u.

Definition unbox (v : value) : option Timestamp :=
  match v with
  | VTimestamp t => Some t
  | _ => None
  end.

Section Conversion.

Variable parse : DateParser.

(** The format line 106 converts the column [col] of [df] with. *)
Definition column_format (col : string) (df : DataFrame) : option string :=
  inferred_format parse (cell col <$> rows df).

(** Lines 106-107 raise nothing on [df]: [pd.to_datetime(df[col])]
    returns, and the dates of the column compare with a date (when the
    column is there). *)
Definition filterable (col : string) (df : DataFrame) : bool :=
  if has_column col df then
    match to_datetime parse (cell col <$> rows df) with
    | Ok conv => negb (all_missing (calendar_date <$> conv))
    | Raised _ => false
    end
  else true.

(** How line 106 rewrites one record of [df]. *)
Definition normalised (col : string) (df : DataFrame) (r r1 : gmap string value) : Prop :=
  ∃ o, to_datetime_scalar parse (column_format col df) (cell col r) = Ok o
       ∧ r1 = <[col := box o]> r.

End Conversion.

(** ** Concrete tables *)

Definition registro (id : Z) (v : value) : gmap string value :=
  {[ "id"%string := VInt id; created_at := v ]}.

Definition jugada (id : Z) (numero : Z) : gmap string value :=
  {[ "id"%string := VInt id; "numero"%string := VInt numero ]}.

Definition at_time (d : Z) (h : Z) : value :=
  VTimestamp (mkTimestamp d (h * 3600000000000) None).

(** A table with a [created_at] column holding strings of one format and
    a missing value. *)
Definition registros : DataFrame :=
  {| columns := ["id"; created_at]%string;
     rows := [ registro 1 (VStr "2024-01-01 00:00:00");
               registro 2 (VStr "2024-01-01 10:00:00");
               registro 3 (VStr "2024-01-03 23:59:59");
               registro 4 VNone;
               registro 5 (VStr "2024-02-10 00:00:00") ] |}.

(** [registros] after line 106. *)
Definition registros_normalizados : DataFrame :=
  {| columns := ["id"; created_at]%string;
     rows := [ registro 1 (at_time (ymd 2024 1 1) 0);
               registro 2 (at_time (ymd 2024 1 1) 10);
               registro 3 (VTimestamp (mkTimestamp (ymd 2024 1 3) 86399000000000 None));
               registro 4 VNaT;
               registro 5 (at_time (ymd 2024 2 10) 0) ] |}.

(** The records of January 1st to 3rd, 2024. *)
Definition registros_enero : DataFrame :=
  {| columns := ["id"; created_at]%string;
     rows := [ registro 1 (at_time (ymd 2024 1 1) 0);
               registro 2 (at_time (ymd 2024 1 1) 10);
               registro 3 (VTimestamp (mkTimestamp (ymd 2024 1 3) 86399000000000 None)) ] |}.

Definition sin_registros : DataFrame :=
  {| columns := ["id"; created_at]%string; rows := [] |}.

(** A table without a date column. *)
Definition jugadas : DataFrame :=
  {| columns := ["id"; "numero"]%string; rows := [jugada 1 17; jugada 2 48] |}.


(** A table whose timestamps are dates, written in two formats. *)
Definition formatos_mixtos : DataFrame :=
  {| columns := ["id"; created_at]%string;
     rows := [ registro 1 (VStr "2024-01-01");
               registro 2 (VStr "2024-01-03 23:59:59") ] |}.

(** A table whose timestamps are all missing. *)
Definition sin_fechas : DataFrame :=
  {| columns := ["id"; created_at]%string;
     rows := [ registro 1 VNone; registro 2 VNone ] |}.

(** ** The sidebar (lines 15-24) *)

(** Line 18: [today - datetime.timedelta(days=30)]; [None] stands for the
    [OverflowError] of a result before [date.min] (ordinal 1). *)
Definition default_start (today : Z) : option Z :=
  if 1 <=? today - 30 then Some (today - 30) else None.

(** Line 23: [start_date > end_date], the test that puts the error in the
    sidebar.  The script goes on either way. *)
Definition sidebar_error (start_date end_date : Z) : bool :=
  end_date <? start_date.

(** ** [format_date] (lines 44-45) *)

(** A [datetime.date] with its fields, for the code that reads them.  The
    comparisons of the first tab only see its ordinal. *)
Record date : Set := mkDate {
  year : Z;
  month : Z;
  day : Z
}.

Definition toordinal (d : date) : Z := ymd (year d) (month d) (day d).

(** The dates [datetime.date] can hold. *)
Definition valid_date (d : date) : bool :=
  (1 <=? year d) && (year d <=? 9999) && (1 <=? month d) && (month d <=? 12)
  && (1 <=? day d) && (day d <=? days_in_month (year d) (month d)).

Definition digit_char (n : Z) : ascii := ascii_of_nat (Z.to_nat (48 + n mod 10)).

(** [%m], [%d]: two digits, zero-padded. *)
Definition two_digits (n : Z) : list ascii := [digit_char (n / 10); digit_char n].

(** [%Y]: four digits from the year 1000 on.  Below, whether the year is
    padded depends on the platform and on the version of Python; the bare
    decimal of the C library of Linux is taken here. *)
Definition year_digits (y : Z) : list ascii :=
  if y <? 10 then [digit_char y]
  else if y <? 100 then [digit_char (y / 10); digit_char y]
  else if y <? 1000 then [digit_char (y / 100); digit_char (y / 10); digit_char y]
  else [digit_char (y / 1000); digit_char (y / 100); digit_char (y / 10); digit_char y].

(** [d.strftime("%Y-%m-%d")] *)
Definition format_date (d : date) : string :=
  String.string_of_list_ascii
    (year_digits (year d) ++ ["-"%char] ++ two_digits (month d)
     ++ ["-"%char] ++ two_digits (day d)).

(** ** The analytics reports (lines 47-81) *)

(** Exceptions of this part: indexing a row past its values, besides the
    exceptions above. *)
Inductive py_exn : Set :=
  | IndexError
  | Exn (e : exn).

Inductive outcome (A : Type) : Type :=
  | Returned (a : A)
  | Failed (e : py_exn).
Arguments Returned {A} a.
Arguments Failed {A} e.

#[global] Instance py_exn_eq_dec : EqDecision py_exn.
Proof. solve_decision. Defined.

#[global] Instance outcome_ret : MRet outcome := fun A a => Returned a.
#[global] Instance outcome_bind : MBind outcome := fun A B f m =>
  match m with
  | Returned a => f a
  | Failed e => Failed e
  end.

Definition lift {A : Type} (m : result A) : outcome A :=
  match m with
  | Ok a => Returned a
  | Raised e => Failed (Exn e)
  end.

Fixpoint for_each {A B : Type} (f : A → outcome B) (l : list A) : outcome (list B) :=
  match l with
  | [] => Returned []
  | x :: l' => y ← f x; ys ← for_each f l'; Returned (y :: ys)
  end.

(** [l[i]] on a repeated field. *)
Definition index {A : Type} (l : list A) (i : nat) : outcome A :=
  match l !! i with
  | Some x => Returned x
  | None => Failed IndexError
  end.

Record DateRange : Set := mkDateRange {
  range_start_date : string;
  range_end_date : string
}.

Record RunReportRequest : Set := mkRunReportRequest {
  property : string;
  date_ranges : list DateRange;
  dimensions : list string;
  metrics : list string;
  limit : option Z;
  order_bys : list string
}.

(** A row of a report: the [value] of each dimension and of each metric. *)
Record Row : Set := mkRow {
  dimension_values : list string;
  metric_values : list string
}.

(** [pd.DataFrame(data)] for a list of dicts that all have the keys
    [keys], in that order: without a dict there is no column either. *)
Definition DataFrame_of_dicts (keys : list string) (data : list (gmap string value))
  : DataFrame :=
  {| columns := match data with [] => [] | _ => keys end; rows := data |}.

Definition int_cell (v : value) : result Z :=
  match v with
  | VInt n => Ok n
  | _ => Raised TypeError
  end.

(** Rows carrying their sort key, compared by key. *)
Definition key_le (a b : Z * gmap string value) : Prop := a.1 ≤ b.1.

#[global] Instance key_le_dec : RelDecision key_le.
Proof. intros a b. unfold key_le. apply Z.le_dec. Defined.

(** [df.sort_values(by)] for a column of integers, ascending (the script
    sorts the hours, which [int] produced; columns of other types are not
    modelled and stand as a [TypeError]).  A label that is not a column is
    a [KeyError].  The order pandas gives to rows with equal keys is left
    open by its sort; the statements below do not rely on it. *)
Definition sort_values (df : DataFrame) (by_ : string) : result DataFrame :=
  col ← getitem df by_;
  keys ← traverse int_cell col;
  Ok {| columns := columns df;
        rows := (merge_sort key_le (zip keys (rows df))).*2 |}.

(** [int(s.max())] for a column of integers; the maximum of no value is
    [NaN], which [int] refuses. *)
Definition series_max (s : list value) : result Z :=
  keys ← traverse int_cell s;
  match keys with
  | [] => Raised ValueError
  | k :: ks => Ok (foldr Z.max k ks)
  end.

Section Reports.

(** The client's [run_report] and Python's [int] on a string are not code
    of this repository: parameters.  [py_int s = None] stands for the
    [ValueError] of a string that is not an integer literal. *)
Variable run_report : RunReportRequest → list Row.
Variable py_int : string → option Z.

Definition int_of (s : string) : outcome Z :=
  match py_int s with
  | Some n => Returned n
  | None => Failed (Exn ValueError)
  end.

(** [f"properties/{property_id}"], the identifier by its text. *)
Definition properties_of (property_id : string) : string :=
  String.append "properties/" property_id.

(** The requests of lines 49-53, 59-65 and 72-78. *)
Definition kpis_request (property_id : string) (start end_ : date) : RunReportRequest :=
  {| property := properties_of property_id;
     date_ranges := [mkDateRange (format_date start) (format_date end_)];
     dimensions := [];
     metrics := ["totalUsers"; "sessions"; "screenPageViews";
                 "averageSessionDuration"; "bounceRate"]%string;
     limit := None;
     order_bys := [] |}.

Definition pages_request (property_id : string) (start end_ : date) : RunReportRequest :=
  {| property := properties_of property_id;
     date_ranges := [mkDateRange (format_date start) (format_date end_)];
     dimensions := ["pageTitle"; "sessionSource"]%string;
     metrics := ["totalUsers"]%string;
     limit := Some 20;
     order_bys := [] |}.

Definition hourly_request (property_id : string) (start end_ : date) : RunReportRequest :=
  {| property := properties_of property_id;
     date_ranges := [mkDateRange (format_date start) (format_date end_)];
     dimensions := ["hour"]%string;
     metrics := ["totalUsers"]%string;
     limit := None;
     order_bys := ["hour"]%string |}.

(** Lines 47-55 *)
Definition get_ga4_kpis (property_id : string) (start end_ : date) : option Row :=
  head (run_report (kpis_request property_id start end_)).

(** The dict line 67 builds from a row. *)
Definition pages_record (r : Row) : outcome (gmap string value) :=
  titulo ← index (dimension_values r) 0;
  fuente ← index (dimension_values r) 1;
  usuarios ← index (metric_values r) 0 ≫= int_of;
  Returned {[ "Título"%string := VStr titulo;
              "Fuente"%string := VStr fuente;
              "Usuarios"%string := VInt usuarios ]}.

(** Lines 57-68 *)
Definition get_ga4_pages_source (property_id : string) (start end_ : date)
  : outcome DataFrame :=
  data ← for_each pages_record (run_report (pages_request property_id start end_));
  Returned (DataFrame_of_dicts ["Título"; "Fuente"; "Usuarios"]%string data).

(** The dict line 80 builds from a row. *)
Definition hourly_record (r : Row) : outcome (gmap string value) :=
  hora ← index (dimension_values r) 0 ≫= int_of;
  usuarios ← index (metric_values r) 0 ≫= int_of;
  Returned {[ "Hora"%string := VInt hora; "Usuarios"%string := VInt usuarios ]}.

(** Lines 70-81 *)
Definition get_ga4_hourly (property_id : string) (start end_ : date)
  : outcome DataFrame :=
  data ← for_each hourly_record (run_report (hourly_request property_id start end_));
  lift (sort_values (DataFrame_of_dicts ["Hora"; "Usuarios"]%string data) "Hora").

(** What the two columns of the second tab put on the page. *)
Inductive tab2_widget : Type :=
  | subheader_horario
  | area_chart (df_hourly : DataFrame)
  | subheader_paginas
  | pages_table (df_pages : DataFrame) (max_value : Z).

(** Lines 151-155 *)
Definition patron_horario (prop_id : string) (start_date end_date : date)
  : outcome (list tab2_widget) :=
  df_hourly ← get_ga4_hourly prop_id start_date end_date;
  Returned (subheader_horario
            :: (if negb (empty df_hourly) then [area_chart df_hourly] else [])).

(** Lines 157-166 *)
Definition top_paginas (prop_id : string) (start_date end_date : date)
  : outcome (list tab2_widget) :=
  df_pages ← get_ga4_pages_source prop_id start_date end_date;
  if negb (empty df_pages) then
    max_value ← lift (getitem df_pages "Usuarios" ≫= series_max);
    Returned [subheader_paginas; pages_table df_pages max_value]
  else
    Returned [subheader_paginas].

(** Lines 149-166: the two columns, one after the other.  The widgets
    already on the page when an exception is raised are not part of the
    outcome. *)
Definition columnas (prop_id : string) (start_date end_date : date)
  : outcome (list tab2_widget) :=
  horario ← patron_horario prop_id start_date end_date;
  paginas ← top_paginas prop_id start_date end_date;
  Returned (horario ++ paginas).

End Reports.

(** Integer literals made of decimal digits only, for the examples. *)
Definition int_digits (s : string) : option Z :=
  match String.list_ascii_of_string s with
  | [] => None
  | l => number 0 l
  end.

(** The records of January 2024 in another order. *)
Definition registros_enero_desordenados : DataFrame :=
  {| columns := ["id"; created_at]%string;
     rows := [ registro 3 (VTimestamp (mkTimestamp (ymd 2024 1 3) 86399000000000 None));
               registro 1 (at_time (ymd 2024 1 1) 0);
               registro 2 (at_time (ymd 2024 1 1) 10) ] |}.

(** Two dates of the sidebar. *)
Definition cinco_de_enero : date := mkDate 2024 1 5.
Definition treinta_de_noviembre : date := mkDate 2024 11 30.

(** Reports as the client could return them. *)
Definition informe_vacio (_ : RunReportRequest) : list Row := [].

Definition informe_horario (_ : RunReportRequest) : list Row :=
  [ mkRow ["13"]%string ["5"]%string;
    mkRow ["02"]%string ["7"]%string;
    mkRow ["09"]%string ["1"]%string ].

Definition informe_paginas (_ : RunReportRequest) : list Row :=
  [ mkRow ["Inicio"; "google"]%string ["5"]%string;
    mkRow ["Quiniela"; "(direct)"]%string ["17"]%string ].

Definition hora (h u : Z) : gmap string value :=
  {[ "Hora"%string := VInt h; "Usuarios"%string := VInt u ]}.

Definition pagina (t f : string) (u : Z) : gmap string value :=
  {[ "Título"%string := VStr t; "Fuente"%string := VStr f; "Usuarios"%string := VInt u ]}.

Definition horas_ordenadas : DataFrame :=
  {| columns := ["Hora"; "Usuarios"]%string;
     rows := [hora 2 7; hora 9 1; hora 13 5] |}.

Definition paginas : DataFrame :=
  {| columns := ["Título"; "Fuente"; "Usuarios"]%string;
     rows := [pagina "Inicio" "google" 5; pagina "Quiniela" "(direct)" 17] |}.

(** * Properties *)

(** ** Calendar and parser on examples *)

Example ymd_2024_01_01 : ymd 2024 1 1 = 738886.
Proof. reflexivity. Qed.

Example ymd_epoch : ymd 1970 1 1 = epoch_ordinal.
Proof. reflexivity. Qed.

Example parse_iso_date :
  parse_iso "2024-01-03" = Some (Some (mkTimestamp (ymd 2024 1 3) 0 None)).
Proof. vm_compute. reflexivity. Qed.

Example parse_iso_datetime :
  parse_iso "2024-01-03 23:59:59"
  = Some (Some (mkTimestamp (ymd 2024 1 3) 86399000000000 None)).
Proof. vm_compute. reflexivity. Qed.

Example parse_iso_garbage : parse_iso "abc" = None.
Proof. vm_compute. reflexivity. Qed.

Example to_datetime_epoch :
  to_datetime iso_parser [VInt 0; VNone; VInt 86400000000001]
  = Ok [VTimestamp (mkTimestamp (ymd 1970 1 1) 0 None); VNaT;
        VTimestamp (mkTimestamp (ymd 1970 1 2) 1 None)].
Proof. vm_compute. reflexivity. Qed.

Example to_datetime_bool : to_datetime iso_parser [VNone; VBool true] = Raised TypeError.
Proof. vm_compute. reflexivity. Qed.

Example to_datetime_mixed_tz :
  to_datetime iso_parser
    [VTimestamp (mkTimestamp (ymd 2024 1 1) 0 (Some 0)); VStr "2024-01-02"]
  = Raised ValueError.
Proof. vm_compute. reflexivity. Qed.

Example dt_date_object_column : dt_date [VStr "2024-01-02"] = Raised AttributeError.
Proof. reflexivity. Qed.

Example to_datetime_one_format :
  to_datetime iso_parser [VStr "2024-01-01"; VNone; VStr "2024-01-03"]
  = Ok [VTimestamp (mkTimestamp (ymd 2024 1 1) 0 None); VNaT;
        VTimestamp (mkTimestamp (ymd 2024 1 3) 0 None)].
Proof. vm_compute. reflexivity. Qed.

Example to_datetime_two_formats :
  to_datetime iso_parser [VStr "2024-01-01"; VStr "2024-01-03 23:59:59"]
  = Raised ValueError.
Proof. vm_compute. reflexivity. Qed.

Example to_datetime_not_a_date :
  to_datetime iso_parser [VStr "2024-01-01"; VStr "abc"] = Raised ValueError
  ∧ to_datetime iso_parser [VStr "abc"] = Raised DateParseError.
Proof. split; vm_compute; reflexivity. Qed.

Example ge_scalar_all_missing :
  ge_scalar [None; None] (ymd 2024 1 1) = Raised TypeError
  ∧ ge_scalar [] (ymd 2024 1 1) = Ok []
  ∧ ge_scalar [None; Some (ymd 2024 1 2)] (ymd 2024 1 1) = Ok [false; true].
Proof. repeat split. Qed.

(** ** The result monad and [traverse] *)

Lemma traverse_Forall2 {A B : Type} (f : A → result B) (l : list A) (l' : list B) :
  traverse f l = Ok l' ↔ Forall2 (fun x y => f x = Ok y) l l'.
Proof.
  revert l'. induction l as [|x l IH]; intros l'; simpl.
  - split.
    + intros [= <-]. constructor.
    + intros H. inversion H. reflexivity.
  - split.
    + destruct (f x) as [y|e] eqn:Hx; simpl; [|discriminate].
      destruct (traverse f l) as [ys|e] eqn:Hl; simpl; [|discriminate].
      intros [= <-]. constructor; [assumption|]. apply IH. reflexivity.
    + intros H. inversion H as [|? y ? ys Hx Hl]; subst.
      rewrite Hx. simpl. apply IH in Hl. rewrite Hl. reflexivity.
Qed.

Lemma traverse_length {A B : Type} (f : A → result B) (l : list A) (l' : list B) :
  traverse f l = Ok l' → length l' = length l.
Proof.
  intros H. apply traverse_Forall2 in H. symmetry. eapply Forall2_length, H.
Qed.

Lemma traverse_total {A B : Type} (f : A → result B) (g : A → B) (l : list A) :
  Forall (fun x => f x = Ok (g x)) l → traverse f l = Ok (g <$> l).
Proof.
  induction 1 as [|x l Hx _ IH]; simpl; [reflexivity|].
  rewrite Hx. simpl. rewrite IH. reflexivity.
Qed.

(** ** Reading and writing a column *)

Lemma cell_put c r v : cell c (put c r v) = v.
Proof. unfold cell, put. rewrite lookup_insert_eq. reflexivity. Qed.

Lemma lookup_put_ne c c' r v : c' ≠ c → put c r v !! c' = r !! c'.
Proof. intros H. unfold put. apply lookup_insert_ne. congruence. Qed.

Lemma put_put c r v w : put c (put c r v) w = put c r w.
Proof. unfold put. apply insert_insert_eq. Qed.

Lemma imap_put c (s : list value) (rs : list (gmap string value)) :
  length s = length rs →
  imap (fun i r => <[c := default VNone (s !! i)]> r) rs = zip_with (put c) rs s.
Proof.
  revert s. induction rs as [|r rs IH]; intros s Hlen; [reflexivity|].
  destruct s as [|v s]; [discriminate|]. simpl in Hlen.
  simpl. f_equal. rewrite <- IH by lia. apply imap_ext. intros; reflexivity.
Qed.

Lemma setitem_rows df c s :
  length s = length (rows df) →
  rows (setitem df c s) = zip_with (put c) (rows df) s.
Proof. intros H. simpl. apply imap_put, H. Qed.

Lemma getitem_present df c :
  has_column c df = true → getitem df c = Ok (cell c <$> rows df).
Proof. intros H. unfold getitem. rewrite H. reflexivity. Qed.

Lemma getitem_absent df c :
  has_column c df = false → getitem df c = Raised KeyError.
Proof. intros H. unfold getitem. rewrite H. reflexivity. Qed.

Lemma setitem_columns df c s :
  has_column c df = true → columns (setitem df c s) = columns df.
Proof. intros H. simpl. rewrite H. reflexivity. Qed.

Lemma has_column_setitem df c s : has_column c (setitem df c s) = true.
Proof.
  unfold has_column at 1. simpl. apply bool_decide_eq_true.
  destruct (has_column c df) eqn:H.
  - apply bool_decide_eq_true in H. exact H.
  - apply elem_of_app. right. apply list_elem_of_singleton. reflexivity.
Qed.

Lemma cell_zip_put c (rs : list (gmap string value)) (s : list value) :
  length s = length rs → cell c <$> zip_with (put c) rs s = s.
Proof.
  revert s. induction rs as [|r rs IH]; intros [|v s] Hlen; try discriminate; [reflexivity|].
  simpl. rewrite cell_put. f_equal. apply IH. simpl in Hlen. lia.
Qed.

(** ** Dates of a datetime column *)

Lemma in_range_spec s e o :
  in_range s e o = true ↔ ∃ d, o = Some d ∧ s ≤ d ≤ e.
Proof.
  destruct o as [d|]; simpl.
  - rewrite andb_true_iff, !Z.leb_le. split.
    + intros H. exists d. split; [reflexivity|lia].
    + intros (d' & [= <-] & H). lia.
  - split; [discriminate|]. intros (d & H & _). discriminate.
Qed.

Lemma calendar_date_box o : calendar_date (box o) = ts_date <$> o.
Proof. destruct o; reflexivity. Qed.

Lemma dt_date_box (conv : list (option Timestamp)) :
  dt_date (box <$> conv) = Ok (calendar_date <$> (box <$> conv)).
Proof.
  unfold dt_date. apply traverse_total.
  apply Forall_fmap, Forall_forall. intros [t|] _; reflexivity.
Qed.

Lemma mask_and_in_range (ds : list (option Z)) s e :
  all_missing ds = false →
  ∃ ge le, ge_scalar ds s = Ok ge ∧ le_scalar ds e = Ok le
           ∧ mask_and ge le = in_range s e <$> ds.
Proof.
  intros Hds. unfold ge_scalar, le_scalar. rewrite Hds.
  eexists _, _. split; [reflexivity|]. split; [reflexivity|].
  unfold mask_and. clear Hds.
  induction ds as [|o ds IH]; [reflexivity|].
  destruct o; simpl; f_equal; exact IH.
Qed.

Lemma ge_scalar_all_missing_raises (ds : list (option Z)) s :
  all_missing ds = true → ge_scalar ds s = Raised TypeError.
Proof. intros Hds. unfold ge_scalar. rewrite Hds. reflexivity. Qed.

Lemma forallb_missing_false (ds : list (option Z)) :
  forallb (fun o => bool_decide (o = None)) ds = false ↔ ∃ d, Some d ∈ ds.
Proof.
  induction ds as [|[d|] ds IH]; simpl.
  - split; [discriminate|]. intros [d Hd]. apply elem_of_nil in Hd. contradiction.
  - split; [|reflexivity]. intros _. exists d. left.
  - rewrite IH. split; intros [d Hd]; exists d.
    + right. exact Hd.
    + apply elem_of_cons in Hd as [Hd|Hd]; [discriminate|exact Hd].
Qed.

(** A series with a date in it is not a series of missing dates only. *)
Lemma all_missing_false (ds : list (option Z)) :
  all_missing ds = false ↔ ds = [] ∨ ∃ d, Some d ∈ ds.
Proof.
  destruct ds as [|o ds]; [split; [auto|reflexivity]|].
  unfold all_missing. rewrite forallb_missing_false. split; [auto|].
  intros [Hnil|H]; [discriminate|exact H].
Qed.

Lemma compress_fmap {A : Type} (p : A → bool) (l : list A) :
  compress (p <$> l) l = List.filter p l.
Proof.
  induction l as [|x l IH]; simpl; [reflexivity|].
  destruct (p x); [f_equal|]; exact IH.
Qed.

Lemma sublist_filter {A : Type} (p : A → bool) (l : list A) :
  sublist (List.filter p l) l.
Proof.
  induction l as [|x l IH]; simpl; [constructor|].
  destruct (p x); [apply sublist_skip|apply sublist_cons]; exact IH.
Qed.

(** ** The filter of lines 106-108 *)

Section Filter.

Variable parse : DateParser.

Lemma to_datetime_Ok raw conv :
  to_datetime parse raw = Ok conv ↔
  ∃ ts, traverse (to_datetime_scalar parse (inferred_format parse raw)) raw = Ok ts
        ∧ same_tz ts = true ∧ conv = box <$> ts.
Proof.
  unfold to_datetime. split.
  - destruct (traverse _ raw) as [ts|e]; cbn [mbind result_bind]; [|discriminate].
    destruct (same_tz ts) eqn:Htz; [|discriminate].
    intros [= <-]. exists ts. auto.
  - intros (ts & Hts & Htz & ->). rewrite Hts. cbn [mbind result_bind].
    rewrite Htz. reflexivity.
Qed.

Lemma to_datetime_length raw conv :
  to_datetime parse raw = Ok conv → length conv = length raw.
Proof.
  intros (ts & Hts & _ & ->)%to_datetime_Ok.
  rewrite length_fmap. eapply traverse_length, Hts.
Qed.

(** Reading the column back after line 106 gives the converted series. *)
Lemma getitem_setitem col df conv :
  length conv = length (rows df) →
  getitem (setitem df col conv) col = Ok conv.
Proof.
  intros Hlen. unfold getitem. rewrite has_column_setitem.
  rewrite setitem_rows by exact Hlen. rewrite cell_zip_put by exact Hlen.
  reflexivity.
Qed.

Lemma dt_date_converted raw conv :
  to_datetime parse raw = Ok conv → dt_date conv = Ok (calendar_date <$> conv).
Proof. intros (ts & _ & _ & ->)%to_datetime_Ok. apply dt_date_box. Qed.

(** When the column is there, converts, and its dates compare with a
    date, lines 106-108 return the normalised frame and its rows that pass
    the test, in order. *)
Lemma df_filtered_Ok col df s e conv :
  has_column col df = true →
  to_datetime parse (cell col <$> rows df) = Ok conv →
  all_missing (calendar_date <$> conv) = false →
  df_filtered parse col df s e
  = Ok (setitem df col conv,
        {| columns := columns df;
           rows := List.filter (retained col s e) (rows (setitem df col conv)) |}).
Proof.
  intros Hcol Hconv Hmiss.
  assert (Hlen : length conv = length (rows df)).
  { rewrite (to_datetime_length _ _ Hconv). apply length_fmap. }
  destruct (mask_and_in_range _ s e Hmiss) as (ge & le & Hge & Hle & Hand).
  unfold df_filtered. rewrite (getitem_present _ _ Hcol). cbn [mbind result_bind].
  rewrite Hconv. cbn [mbind result_bind].
  rewrite (getitem_setitem _ _ _ Hlen). cbn [mbind result_bind].
  rewrite (dt_date_converted _ _ Hconv). cbn [mbind result_bind].
  rewrite Hge. cbn [mbind result_bind]. rewrite Hle. cbn [mbind result_bind].
  rewrite Hand.
  assert (Hmask : in_range s e <$> (calendar_date <$> conv)
                  = retained col s e <$> rows (setitem df col conv)).
  { rewrite setitem_rows by exact Hlen.
    rewrite <- (cell_zip_put col (rows df) conv Hlen) at 1.
    rewrite <- !list_fmap_compose. reflexivity. }
  rewrite Hmask. unfold loc.
  rewrite bool_decide_eq_true_2 by (rewrite length_fmap; reflexivity).
  cbn [mbind result_bind]. rewrite compress_fmap.
  rewrite (setitem_columns _ _ _ Hcol). reflexivity.
Qed.

(** When the conversion raises, so do lines 106-108. *)
Lemma df_filtered_Raised col df s e x :
  has_column col df = true →
  to_datetime parse (cell col <$> rows df) = Raised x →
  df_filtered parse col df s e = Raised x.
Proof.
  intros Hcol Hconv. unfold df_filtered. rewrite (getitem_present _ _ Hcol).
  cbn [mbind result_bind]. rewrite Hconv. reflexivity.
Qed.

(** When the column converts to missing values only, and has entries,
    the comparison of line 107 raises. *)
Lemma df_filtered_all_missing col df s e conv :
  has_column col df = true →
  to_datetime parse (cell col <$> rows df) = Ok conv →
  all_missing (calendar_date <$> conv) = true →
  df_filtered parse col df s e = Raised TypeError.
Proof.
  intros Hcol Hconv Hmiss.
  assert (Hlen : length conv = length (rows df)).
  { rewrite (to_datetime_length _ _ Hconv). apply length_fmap. }
  unfold df_filtered. rewrite (getitem_present _ _ Hcol). cbn [mbind result_bind].
  rewrite Hconv. cbn [mbind result_bind].
  rewrite (getitem_setitem _ _ _ Hlen). cbn [mbind result_bind].
  rewrite (dt_date_converted _ _ Hconv). cbn [mbind result_bind].
  rewrite (ge_scalar_all_missing_raises _ _ Hmiss). reflexivity.
Qed.

Lemma df_filtered_no_column col df s e :
  has_column col df = false → df_filtered parse col df s e = Raised KeyError.
Proof.
  intros Hcol. unfold df_filtered. rewrite (getitem_absent _ _ Hcol). reflexivity.
Qed.

(** Inversion: a successful run went through a successful conversion. *)
Lemma df_filtered_inv col df s e df1 out :
  df_filtered parse col df s e = Ok (df1, out) →
  has_column col df = true ∧
  ∃ conv, to_datetime parse (cell col <$> rows df) = Ok conv
          ∧ all_missing (calendar_date <$> conv) = false
          ∧ df1 = setitem df col conv
          ∧ out = {| columns := columns df;
                     rows := List.filter (retained col s e) (rows df1) |}.
Proof.
  intros H. destruct (has_column col df) eqn:Hcol.
  - split; [reflexivity|].
    destruct (to_datetime parse (cell col <$> rows df)) as [conv|x] eqn:Hconv.
    + destruct (all_missing (calendar_date <$> conv)) eqn:Hmiss.
      * rewrite (df_filtered_all_missing _ _ _ _ _ Hcol Hconv Hmiss) in H. discriminate.
      * rewrite (df_filtered_Ok _ _ _ _ _ Hcol Hconv Hmiss) in H.
        injection H as <- <-. exists conv. auto.
    + rewrite (df_filtered_Raised _ _ _ _ _ Hcol Hconv) in H. discriminate.
  - rewrite (df_filtered_no_column _ _ _ _ Hcol) in H. discriminate.
Qed.

End Filter.

(** ** The histogram behind [groupby(...).size()] *)

Lemma bump_keys d h k : k ∈ (bump d h).*1 ↔ k = d ∨ k ∈ h.*1.
Proof.
  induction h as [|[k0 n0] h IH]; simpl.
  - rewrite list_elem_of_singleton. rewrite elem_of_nil. tauto.
  - destruct (Z.ltb_spec d k0) as [Hlt|Hge]; simpl.
    + rewrite !elem_of_cons. tauto.
    + destruct (Z.eqb_spec d k0) as [->|Hne]; simpl.
      * rewrite !elem_of_cons. tauto.
      * rewrite !elem_of_cons, IH. tauto.
Qed.

Lemma bump_sorted d h :
  StronglySorted Z.lt (h.*1) → StronglySorted Z.lt ((bump d h).*1).
Proof.
  induction h as [|[k0 n0] h IH]; simpl; intros Hs.
  - repeat constructor.
  - apply StronglySorted_inv in Hs as [Hs Hall].
    destruct (Z.ltb_spec d k0) as [Hlt|Hge]; simpl.
    + constructor.
      * constructor; assumption.
      * constructor; [exact Hlt|]. eapply Forall_impl; [exact Hall|].
        simpl. intros; lia.
    + destruct (Z.eqb_spec d k0) as [->|Hne]; simpl.
      * constructor; assumption.
      * constructor; [apply IH, Hs|].
        apply Forall_forall. intros k [->|Hk]%bump_keys; [lia|].
        rewrite Forall_forall in Hall. apply Hall, Hk.
Qed.

Lemma bump_recorded d d' h :
  recorded d' (bump d h) = ((if (d =? d')%Z then 1 else 0) + recorded d' h)%nat.
Proof.
  induction h as [|[k0 n0] h IH]; simpl.
  - lia.
  - destruct (Z.ltb_spec d k0) as [Hlt|Hge]; simpl; [lia|].
    destruct (Z.eqb_spec d k0) as [->|Hne]; simpl.
    + destruct (k0 =? d'); lia.
    + rewrite IH. lia.
Qed.

Lemma bump_total d h : total (bump d h) = S (total h).
Proof.
  induction h as [|[k0 n0] h IH]; simpl; [reflexivity|].
  destruct (d <? k0); simpl; [reflexivity|].
  destruct (d =? k0); simpl; [reflexivity|].
  rewrite IH. lia.
Qed.

Lemma bump_positive d h :
  Forall (fun p => (0 < p.2)%nat) h → Forall (fun p => (0 < p.2)%nat) (bump d h).
Proof.
  induction 1 as [|[k0 n0] h Hp Hh IH]; simpl.
  - repeat constructor.
  - destruct (d <? k0); [repeat constructor; assumption|].
    destruct (d =? k0); constructor; simpl; try lia; assumption.
Qed.

Lemma groupby_size_keys keys d :
  d ∈ (groupby_size keys).*1 ↔ Some d ∈ keys.
Proof.
  unfold groupby_size. induction keys as [|[k|] keys IH]; simpl.
  - rewrite !elem_of_nil. tauto.
  - rewrite bump_keys, IH, elem_of_cons. split; intros [H|H]; auto; left; congruence.
  - rewrite IH, elem_of_cons. split; [auto|]. intros [H|H]; [discriminate|exact H].
Qed.

Lemma groupby_size_sorted keys : StronglySorted Z.lt ((groupby_size keys).*1).
Proof.
  unfold groupby_size. induction keys as [|[k|] keys IH]; simpl.
  - constructor.
  - apply bump_sorted, IH.
  - exact IH.
Qed.

Lemma groupby_size_recorded keys d :
  recorded d (groupby_size keys) = occurrences d keys.
Proof.
  unfold groupby_size, occurrences. induction keys as [|[k|] keys IH]; simpl.
  - reflexivity.
  - rewrite bump_recorded, IH.
    destruct (Z.eqb_spec k d) as [->|Hne].
    + rewrite bool_decide_eq_true_2 by reflexivity. reflexivity.
    + rewrite bool_decide_eq_false_2 by congruence. reflexivity.
  - rewrite IH. reflexivity.
Qed.

Lemma groupby_size_total keys :
  total (groupby_size keys) = length (omap id keys).
Proof.
  unfold groupby_size. induction keys as [|[k|] keys IH]; simpl.
  - reflexivity.
  - rewrite bump_total. f_equal. exact IH.
  - exact IH.
Qed.

Lemma groupby_size_positive keys :
  Forall (fun p => (0 < p.2)%nat) (groupby_size keys).
Proof.
  unfold groupby_size. induction keys as [|[k|] keys IH]; simpl.
  - constructor.
  - apply bump_positive, IH.
  - exact IH.
Qed.

Lemma sorted_lt_NoDup (l : list Z) : StronglySorted Z.lt l → NoDup l.
Proof.
  induction 1 as [|x l _ IH Hall]; constructor; [|exact IH].
  intros Hx. rewrite Forall_forall in Hall. specialize (Hall x Hx). lia.
Qed.

(** In a histogram with ascending keys, an entry is the recorded count. *)
Lemma sorted_recorded h d n :
  StronglySorted Z.lt (h.*1) → (d, n) ∈ h → recorded d h = n.
Proof.
  induction h as [|[k0 n0] h IH]; simpl; intros Hs Hin.
  - apply elem_of_nil in Hin. contradiction.
  - apply StronglySorted_inv in Hs as [Hs Hall].
    rewrite Forall_forall in Hall.
    assert (Hrest : ∀ m, (k0, m) ∈ h → False).
    { intros m Hm. assert (k0 ∈ h.*1) as Hk by (apply (list_elem_of_fmap_2 fst _ _ Hm)).
      specialize (Hall _ Hk). lia. }
    assert (Hzero : ∀ h', (∀ m, (k0, m) ∈ h' → False) → recorded k0 h' = 0%nat).
    { induction h' as [|[k1 n1] h' IH']; simpl; intros Hno; [reflexivity|].
      destruct (Z.eqb_spec k1 k0) as [->|Hne].
      - exfalso. apply (Hno n1). left.
      - rewrite IH'; [reflexivity|]. intros m Hm. apply (Hno m). right. exact Hm. }
    apply elem_of_cons in Hin as [[= -> ->]|Hin].
    + rewrite Z.eqb_refl, (Hzero h Hrest). lia.
    + destruct (Z.eqb_spec k0 d) as [->|Hne].
      * exfalso. eapply Hrest, Hin.
      * apply IH; assumption.
Qed.

(** ** Timezone agreement *)

Lemma same_tz_uniform ts : same_tz ts = true ↔ uniform_tz ts.
Proof.
  unfold same_tz, uniform_tz.
  assert (Hmem : ∀ t, t ∈ omap id ts ↔ Some t ∈ ts).
  { intros t. rewrite list_elem_of_omap. split.
    - intros ([u|] & Hin & [= <-]). exact Hin.
    - intros Hin. exists (Some t). auto. }
  destruct (omap id ts) as [|t0 rest] eqn:Hom.
  - split; [|reflexivity]. intros _ t u Ht _.
    apply Hmem in Ht. apply elem_of_nil in Ht. contradiction.
  - rewrite forallb_forall. split.
    + intros Hall.
      assert (Hhead : ∀ t, Some t ∈ ts → ts_tz t = ts_tz t0).
      { intros t [->|Ht]%Hmem%elem_of_cons; [reflexivity|].
        apply list_elem_of_In in Ht. apply Hall in Ht.
        apply bool_decide_eq_true in Ht. exact Ht. }
      intros t u Ht Hu. rewrite (Hhead t Ht), (Hhead u Hu). reflexivity.
    + intros Huni u Hu. apply bool_decide_eq_true. apply Huni.
      * apply Hmem. right. apply list_elem_of_In. exact Hu.
      * apply Hmem. left.
Qed.

(** ** Shape of a successful filter *)

Section Shape.

Variable parse : DateParser.


Lemma zip_put_normalised col df (rs : list (gmap string value)) ts :
  Forall2 (fun r o => to_datetime_scalar parse (column_format parse col df) (cell col r)
                      = Ok o) rs ts →
  Forall2 (normalised parse col df) rs (zip_with (put col) rs (box <$> ts)).
Proof.
  induction 1 as [|r o rs ts Hr _ IH]; simpl; constructor; [|exact IH].
  exists o. auto.
Qed.

Lemma df_filtered_shape col df s e df1 out :
  df_filtered parse col df s e = Ok (df1, out) →
  has_column col df = true
  ∧ columns df1 = columns df
  ∧ columns out = columns df
  ∧ rows out = List.filter (retained col s e) (rows df1)
  ∧ Forall2 (normalised parse col df) (rows df) (rows df1)
  ∧ ∃ ts, uniform_tz ts ∧ cell col <$> rows df1 = box <$> ts.
Proof.
  intros (Hcol & conv & Hconv & _ & -> & ->)%df_filtered_inv.
  pose proof (to_datetime_length _ _ _ Hconv) as Hlen. rewrite length_fmap in Hlen.
  apply to_datetime_Ok in Hconv as (ts & Hts & Htz & ->).
  split; [exact Hcol|]. split; [apply setitem_columns, Hcol|].
  split; [reflexivity|]. split; [reflexivity|].
  rewrite setitem_rows by exact Hlen. split.
  - apply zip_put_normalised. apply traverse_Forall2 in Hts.
    apply Forall2_fmap_l in Hts. exact Hts.
  - exists ts. split; [apply same_tz_uniform, Htz|].
    apply cell_zip_put, Hlen.
Qed.

(** A record that passes the test holds a timestamp in the column. *)
Lemma retained_timestamp col s e r :
  retained col s e r = true →
  ∃ t, cell col r = VTimestamp t ∧ s ≤ ts_date t ≤ e.
Proof.
  unfold retained. intros (d & Hd & Hr)%in_range_spec.
  destruct (cell col r) as [| |t| | | |]; try discriminate.
  injection Hd as <-. eauto.
Qed.

Lemma normalised_lookup col df r r1 :
  normalised parse col df r r1 →
  is_Some (r1 !! col) ∧ ∀ c, c ≠ col → r1 !! c = r !! c.
Proof.
  intros (o & _ & ->). split.
  - rewrite lookup_insert_eq. eauto.
  - intros c Hc. apply lookup_insert_ne. congruence.
Qed.

(** Records selected from a rewritten table descend, in order, from
    distinct records of the original. *)
Lemma filter_descends {A B : Type} (R R' : A → B → Prop) (p : B → bool) l l1 :
  Forall2 R l l1 →
  (∀ x y, R x y → p y = true → R' x y) →
  ∃ kept, sublist kept l ∧ Forall2 R' kept (List.filter p l1).
Proof.
  intros HF Himp. induction HF as [|x y l l1 Hxy _ (kept & Hsub & Hk)]; simpl.
  - exists []. split; constructor.
  - destruct (p y) eqn:Hp.
    + exists (x :: kept). split; [apply sublist_skip, Hsub|].
      constructor; [apply Himp; assumption|exact Hk].
    + exists kept. split; [apply sublist_cons, Hsub|exact Hk].
Qed.

End Shape.

(** ** Filtering a filtered table, counting a filtered table *)

Section Refilter.

Variable parse : DateParser.

Lemma unbox_box o : unbox (box o) = o.
Proof. destruct o; reflexivity. Qed.

Lemma to_datetime_scalar_box fmt o : to_datetime_scalar parse fmt (box o) = Ok o.
Proof. destruct o; reflexivity. Qed.

Lemma traverse_box fmt ts :
  traverse (to_datetime_scalar parse fmt) (box <$> ts) = Ok ts.
Proof.
  induction ts as [|o ts IH]; [reflexivity|].
  cbn [fmap list_fmap traverse]. rewrite to_datetime_scalar_box.
  cbn [mbind result_bind]. change (list_fmap _ _ box ts) with (box <$> ts).
  rewrite IH. reflexivity.
Qed.

(** A datetime series converts to itself. *)
Lemma to_datetime_boxed ts :
  uniform_tz ts → to_datetime parse (box <$> ts) = Ok (box <$> ts).
Proof.
  intros Huni. apply to_datetime_Ok. exists ts. split; [|split].
  - apply traverse_box.
  - apply same_tz_uniform, Huni.
  - reflexivity.
Qed.

Lemma filter_filter {A : Type} (p : A → bool) (l : list A) :
  List.filter p (List.filter p l) = List.filter p l.
Proof.
  induction l as [|x l IH]; simpl; [reflexivity|].
  destruct (p x) eqn:Hp; simpl; [rewrite Hp; f_equal|]; exact IH.
Qed.

Lemma zip_put_id col (rs : list (gmap string value)) :
  Forall (fun r => is_Some (r !! col)) rs →
  zip_with (put col) rs (cell col <$> rs) = rs.
Proof.
  induction 1 as [|r rs [v Hv] _ IH]; simpl; [reflexivity|].
  f_equal; [|exact IH]. unfold put, cell. rewrite Hv. simpl.
  apply insert_id, Hv.
Qed.

(** The column of a filtered table is a datetime series in one timezone. *)
Lemma filtered_column col df s e df1 out :
  df_filtered parse col df s e = Ok (df1, out) →
  has_column col out = true
  ∧ Forall (fun r => is_Some (r !! col)) (rows out)
  ∧ Forall (fun r => retained col s e r = true) (rows out)
  ∧ ∃ ts, uniform_tz ts ∧ cell col <$> rows out = box <$> ts.
Proof.
  intros (Hcol & Hc1 & Hco & Hrows & Hnorm & ts & Huni & Hts)%df_filtered_shape.
  assert (Hin : ∀ r, r ∈ rows out → r ∈ rows df1 ∧ retained col s e r = true).
  { intros r Hr. rewrite Hrows in Hr. apply list_elem_of_In, filter_In in Hr.
    rewrite <- list_elem_of_In in Hr. exact Hr. }
  split; [|split; [|split]].
  - unfold has_column in *. rewrite Hco. exact Hcol.
  - apply Forall_forall. intros r [Hr _]%Hin.
    apply list_elem_of_lookup in Hr as [i Hi].
    destruct (Forall2_lookup_r _ _ _ _ _ Hnorm Hi) as (r0 & _ & Hn).
    apply normalised_lookup in Hn. apply Hn.
  - apply Forall_forall. intros r [_ Hr]%Hin. exact Hr.
  - exists (unbox <$> (cell col <$> rows out)). split.
    + assert (Hmem : ∀ t, Some t ∈ unbox <$> (cell col <$> rows out) → Some t ∈ ts).
      { intros t (v & Hv & (r & -> & Hr)%list_elem_of_fmap)%list_elem_of_fmap.
        apply Hin in Hr as [Hr _].
        assert (cell col r ∈ box <$> ts) as (o & Ho & Hots)%list_elem_of_fmap.
        { rewrite <- Hts. apply list_elem_of_fmap_2, Hr. }
        rewrite Ho, unbox_box in Hv. subst o. exact Hots. }
      intros t u Ht Hu. apply Huni; apply Hmem; assumption.
    + rewrite <- !list_fmap_compose. apply list_fmap_ext.
      intros i r Hr. simpl.
      assert (r ∈ rows out) as [Hr1 _]%Hin by (eapply list_elem_of_lookup_2, Hr).
      assert (cell col r ∈ box <$> ts) as (o & -> & _)%list_elem_of_fmap.
      { rewrite <- Hts. apply list_elem_of_fmap_2, Hr1. }
      rewrite unbox_box. reflexivity.
Qed.

Lemma filter_all {A : Type} (p : A → bool) (l : list A) :
  Forall (fun x => p x = true) l → List.filter p l = l.
Proof.
  induction 1 as [|x l Hx _ IH]; simpl; [reflexivity|].
  rewrite Hx. f_equal. exact IH.
Qed.

(** The records that pass the test have dates: their column is not one of
    missing dates only. *)
Lemma retained_not_all_missing col s e (rs : list (gmap string value)) :
  Forall (fun r => retained col s e r = true) rs →
  all_missing (calendar_date <$> (cell col <$> rs)) = false.
Proof.
  intros Hret. apply all_missing_false. destruct Hret as [|r rs Hr _]; [left; reflexivity|].
  right. apply retained_timestamp in Hr as (t & Ht & _).
  exists (ts_date t). cbn [fmap list_fmap]. rewrite Ht. left.
Qed.

Lemma df_filtered_again col df s e df1 out :
  df_filtered parse col df s e = Ok (df1, out) →
  df_filtered parse col out s e = Ok (out, out).
Proof.
  intros (Hcol & Hsome & Hret & ts & Huni & Hts)%filtered_column.
  assert (Hconv : to_datetime parse (cell col <$> rows out) = Ok (cell col <$> rows out)).
  { rewrite Hts. apply to_datetime_boxed, Huni. }
  rewrite (df_filtered_Ok parse col out s e _ Hcol Hconv
             (retained_not_all_missing _ _ _ _ Hret)).
  assert (Hset : setitem out col (cell col <$> rows out) = out).
  { destruct out as [cs rs]. unfold setitem. simpl in *.
    rewrite Hcol. f_equal. rewrite imap_put by apply length_fmap.
    apply zip_put_id, Hsome. }
  rewrite Hset, (filter_all _ _ Hret). destruct out; reflexivity.
Qed.

(** Lines 114-115 on a filtered table: every record contributes a key. *)
Lemma daily_counts_filtered col df s e df1 out :
  df_filtered parse col df s e = Ok (df1, out) →
  daily_counts col out = Ok (groupby_size (calendar_date <$> (cell col <$> rows out)))
  ∧ Forall (fun r => ∃ d, calendar_date (cell col r) = Some d) (rows out).
Proof.
  intros (Hcol & _ & Hret & ts & _ & Hts)%filtered_column. split.
  - unfold daily_counts. rewrite (getitem_present _ _ Hcol).
    cbn [mbind result_bind]. rewrite Hts, dt_date_box. reflexivity.
  - eapply Forall_impl; [exact Hret|]. simpl.
    intros r (t & Ht & _)%retained_timestamp. rewrite Ht. simpl. eauto.
Qed.

End Refilter.

(** * The claims *)

Section Claims.

Variable parse : DateParser.

Lemma filterByDateRange_present col df s e :
  has_column col df = true →
  filterByDateRange parse col df s e = df_filtered parse col df s e.
Proof. intros H. unfold filterByDateRange. rewrite H. reflexivity. Qed.

Lemma filterByDateRange_absent col df s e :
  has_column col df = false →
  filterByDateRange parse col df s e = Ok (df, df).
Proof. intros H. unfold filterByDateRange. rewrite H. reflexivity. Qed.


(** Lines 106-107 raise exactly on the tables that are not [filterable]. *)
Lemma filterByDateRange_Raised col df s e :
  filterable parse col df = false →
  has_column col df = true
  ∧ ∃ x, filterByDateRange parse col df s e = Raised x
         ∧ (to_datetime parse (cell col <$> rows df) = Raised x
            ∨ (x = TypeError
               ∧ ∃ conv, to_datetime parse (cell col <$> rows df) = Ok conv
                         ∧ all_missing (calendar_date <$> conv) = true)).
Proof.
  unfold filterable. intros Hn.
  destruct (has_column col df) eqn:Hcol; [|discriminate]. split; [reflexivity|].
  rewrite (filterByDateRange_present _ _ _ _ Hcol).
  destruct (to_datetime parse (cell col <$> rows df)) as [conv|x] eqn:Hconv.
  - apply negb_false_iff in Hn. exists TypeError. split.
    + eapply df_filtered_all_missing; eassumption.
    + right. split; [reflexivity|]. exists conv. auto.
  - exists x. split; [|left; reflexivity].
    apply df_filtered_Raised; assumption.
Qed.

Lemma filterByDateRange_filterable col df s e df1 out :
  filterByDateRange parse col df s e = Ok (df1, out) → filterable parse col df = true.
Proof.
  intros Hrun. destruct (filterable parse col df) eqn:Hn; [reflexivity|].
  destruct (filterByDateRange_Raised col df s e Hn) as (_ & x & Hx & _).
  rewrite Hx in Hrun. discriminate.
Qed.

Lemma Forall2_refl_on {A : Type} (R : A → A → Prop) (l : list A) :
  (∀ x, R x x) → Forall2 R l l.
Proof. intros HR. induction l; constructor; auto. Qed.

Lemma filter_none {A : Type} (p : A → bool) (l : list A) :
  (∀ x, p x = false) → List.filter p l = [].
Proof.
  intros Hp. induction l as [|x l IH]; simpl; [reflexivity|].
  rewrite Hp. exact IH.
Qed.

Lemma in_range_inverted s e o : e < s → in_range s e o = false.
Proof.
  intros Hinv. destruct o as [d|]; simpl; [|reflexivity].
  destruct (Z.leb_spec s d), (Z.leb_spec d e); simpl; try reflexivity. lia.
Qed.

Lemma length_filter_fmap {A B : Type} (f : A → B) (p : B → bool) (l : list A) :
  length (List.filter p (f <$> l)) = length (List.filter (fun x => p (f x)) l).
Proof.
  induction l as [|x l IH]; simpl; [reflexivity|].
  destruct (p (f x)); simpl; [f_equal|]; exact IH.
Qed.

Lemma omap_id_all {A B : Type} (f : A → option B) (l : list A) :
  Forall (fun x => ∃ y, f x = Some y) l → length (omap id (f <$> l)) = length l.
Proof.
  induction 1 as [|x l [y Hy] _ IH]; simpl; [reflexivity|].
  rewrite Hy. simpl. f_equal. exact IH.
Qed.

(** C1 (amended): when the column is there and the filter returns, it
    keeps exactly the records whose normalised timestamp has a calendar
    date [d] with [start_date <= d <= end_date], both bounds included; the
    date is the [ts_date] of the timestamp line 106 puts in the record,
    whatever its time of day and timezone.  The filter returns only on a
    table whose column [pd.to_datetime] accepts as a whole and whose dates
    compare with a date. *)
Theorem filterByDateRange_retains_in_range col df start_date end_date df1 out :
  has_column col df = true →
  filterByDateRange parse col df start_date end_date = Ok (df1, out) →
  filterable parse col df = true
  ∧ Forall2 (fun r r1 => ∃ o,
               to_datetime_scalar parse (column_format parse col df) (cell col r) = Ok o
               ∧ r1 = <[col := box o]> r
               ∧ calendar_date (cell col r1) = ts_date <$> o)
            (rows df) (rows df1)
  ∧ rows out
    = List.filter (fun r1 => in_range start_date end_date (calendar_date (cell col r1)))
                  (rows df1)
  ∧ ∀ r1, r1 ∈ rows out ↔
          r1 ∈ rows df1
          ∧ ∃ d, calendar_date (cell col r1) = Some d ∧ start_date ≤ d ≤ end_date.
Proof.
  intros Hcol Hrun.
  split; [eapply filterByDateRange_filterable, Hrun|].
  rewrite (filterByDateRange_present _ _ _ _ Hcol) in Hrun.
  apply df_filtered_shape in Hrun as (_ & _ & _ & Hrows & Hnorm & _).
  split; [|split].
  - eapply Forall2_impl; [exact Hnorm|]. intros r r1 (o & Ho & ->).
    exists o. split; [exact Ho|]. split; [reflexivity|].
    change (<[col:=box o]> r) with (put col r (box o)).
    rewrite cell_put. apply calendar_date_box.
  - exact Hrows.
  - intros r1. rewrite Hrows, list_elem_of_In, filter_In, <- list_elem_of_In.
    unfold retained. rewrite in_range_spec. reflexivity.
Qed.

(** C2: the filtered records are a subsequence of the records of the
    table as the filter leaves it (line 106 writes the normalised column
    into the table itself, without adding or dropping a row); they
    descend, in order and one from one, from records of the table as it
    was passed in. *)
Theorem filterByDateRange_subsequence col df start_date end_date df1 out :
  filterByDateRange parse col df start_date end_date = Ok (df1, out) →
  sublist (rows out) (rows df1)
  ∧ length (rows df1) = length (rows df)
  ∧ ∃ kept, sublist kept (rows df)
            ∧ Forall2 (fun r r' => r' = r ∨ normalised parse col df r r') kept (rows out).
Proof.
  intros Hrun. destruct (has_column col df) eqn:Hcol.
  - rewrite (filterByDateRange_present _ _ _ _ Hcol) in Hrun.
    apply df_filtered_shape in Hrun as (_ & _ & _ & Hrows & Hnorm & _).
    split; [rewrite Hrows; apply sublist_filter|].
    split; [symmetry; eapply Forall2_length, Hnorm|].
    rewrite Hrows. eapply filter_descends; [exact Hnorm|]. auto.
  - rewrite (filterByDateRange_absent _ _ _ _ Hcol) in Hrun.
    injection Hrun as <- <-. split; [reflexivity|]. split; [reflexivity|].
    exists (rows df). split; [reflexivity|]. apply Forall2_refl_on. auto.
Qed.

(** C3: on a table without the column the filter is the identity,
    whatever the range, and the page shows the table as fetched. *)
Theorem filterByDateRange_without_column col df start_date end_date :
  has_column col df = false →
  filterByDateRange parse col df start_date end_date = Ok (df, df)
  ∧ (col = created_at →
     explorador_de_registros parse df start_date end_date
     = Ok [warning_no_date_column; dataframe df]).
Proof.
  intros Hcol. split; [apply filterByDateRange_absent, Hcol|].
  intros ->. unfold explorador_de_registros. rewrite Hcol. reflexivity.
Qed.

(** C4: filtering a filtered table with the same range returns that
    table, and leaves it as it is. *)
Theorem filterByDateRange_idempotent col df start_date end_date df1 out :
  filterByDateRange parse col df start_date end_date = Ok (df1, out) →
  filterByDateRange parse col out start_date end_date = Ok (out, out).
Proof.
  intros Hrun. destruct (has_column col df) eqn:Hcol.
  - rewrite (filterByDateRange_present _ _ _ _ Hcol) in Hrun.
    pose proof (filtered_column _ _ _ _ _ _ _ Hrun) as (Hco & _).
    rewrite (filterByDateRange_present _ _ _ _ Hco).
    eapply df_filtered_again, Hrun.
  - rewrite (filterByDateRange_absent _ _ _ _ Hcol) in Hrun.
    injection Hrun as <- <-. apply filterByDateRange_absent, Hcol.
Qed.

(** C5 (amended): with [end_date < start_date] no date passes the test:
    whenever the filter returns on a table with the column, the filtered
    table has the columns of the table and no record, its per-day counts
    are empty, and the page shows the "no records" warning in place of the
    chart. *)
Theorem inverted_range_is_empty col df start_date end_date df1 out :
  has_column col df = true →
  end_date < start_date →
  filterByDateRange parse col df start_date end_date = Ok (df1, out) →
  out = {| columns := columns df; rows := [] |}
  ∧ daily_counts col out = Ok []
  ∧ evolucion_de_registros col out = Ok [warning_no_records].
Proof.
  intros Hcol Hinv Hrun.
  rewrite (filterByDateRange_present _ _ _ _ Hcol) in Hrun.
  apply df_filtered_inv in Hrun as (_ & conv & _ & _ & _ & Hout).
  rewrite filter_none in Hout by (intros r; apply in_range_inverted, Hinv).
  subst out. split; [reflexivity|]. split; [|reflexivity].
  unfold daily_counts. rewrite getitem_present by exact Hcol. reflexivity.
Qed.

(** C6: the per-day counts of a filtered table are strictly ascending
    by date, hence without a repeated date; a date is listed exactly when
    a record of the table falls on it, and its count is the (positive)
    number of those records: no day is listed with a count of zero. *)
Theorem daily_counts_ascending_exact col df start_date end_date df1 dff :
  has_column col df = true →
  filterByDateRange parse col df start_date end_date = Ok (df1, dff) →
  ∃ dc,
    daily_counts col dff = Ok dc
    ∧ StronglySorted Z.lt (dc.*1)
    ∧ NoDup (dc.*1)
    ∧ (∀ d, d ∈ dc.*1 ↔ ∃ r, r ∈ rows dff ∧ calendar_date (cell col r) = Some d)
    ∧ (∀ d n, (d, n) ∈ dc →
         (0 < n)%nat
         ∧ n = length (List.filter
                         (fun r => bool_decide (calendar_date (cell col r) = Some d))
                         (rows dff))).
Proof.
  intros Hcol Hrun. rewrite (filterByDateRange_present _ _ _ _ Hcol) in Hrun.
  destruct (daily_counts_filtered _ _ _ _ _ _ _ Hrun) as [Hdc _].
  eexists. split; [exact Hdc|].
  pose proof (groupby_size_sorted (calendar_date <$> (cell col <$> rows dff))) as Hs.
  split; [exact Hs|]. split; [apply sorted_lt_NoDup, Hs|]. split.
  - intros d. rewrite groupby_size_keys, <- list_fmap_compose, list_elem_of_fmap.
    split; intros (r & Hd & Hr); exists r; simpl in *; auto.
  - intros d n Hin. split.
    + pose proof (groupby_size_positive (calendar_date <$> (cell col <$> rows dff))) as Hp.
      rewrite Forall_forall in Hp. apply (Hp _ Hin).
    + rewrite <- (sorted_recorded _ _ _ Hs Hin), groupby_size_recorded.
      unfold occurrences. rewrite <- list_fmap_compose.
      apply length_filter_fmap.
Qed.

(** C7: the counts of the per-day series of a filtered table add up to
    the number of its records. *)
Theorem daily_counts_sum col df start_date end_date df1 dff :
  has_column col df = true →
  filterByDateRange parse col df start_date end_date = Ok (df1, dff) →
  ∃ dc, daily_counts col dff = Ok dc ∧ total dc = len dff.
Proof.
  intros Hcol Hrun. rewrite (filterByDateRange_present _ _ _ _ Hcol) in Hrun.
  destruct (daily_counts_filtered _ _ _ _ _ _ _ Hrun) as [Hdc Hall].
  eexists. split; [exact Hdc|].
  rewrite groupby_size_total, <- list_fmap_compose. unfold len.
  apply (omap_id_all (fun r => calendar_date (cell col r))), Hall.
Qed.

(** C8: on a table with no record, lines 113-118 raise nothing and give
    no chart, only the "no records" warning: the per-day sequence is empty.
    The grouping of lines 114-115, which the script then skips, would
    itself return the empty sequence on such a table (given the column). *)
Theorem evolucion_empty_table col dff :
  rows dff = [] →
  evolucion_de_registros col dff = Ok [warning_no_records]
  ∧ (has_column col dff = true → daily_counts col dff = Ok []).
Proof.
  intros Hrows. split.
  - unfold evolucion_de_registros, empty. rewrite Hrows. reflexivity.
  - intros Hcol. unfold daily_counts.
    rewrite (getitem_present _ _ Hcol), Hrows. reflexivity.
Qed.





(** C10: every retained record comes from a record of the source table
    (in order, one from one) with all cells other than the timestamp
    column unchanged and the timestamp cell replaced by its normalised
    timestamp; the replacement is made in the table itself, for every
    record, before the mask is taken. *)
Theorem retained_records_frame col df start_date end_date df1 out :
  has_column col df = true →
  filterByDateRange parse col df start_date end_date = Ok (df1, out) →
  Forall2 (normalised parse col df) (rows df) (rows df1)
  ∧ ∃ kept,
      sublist kept (rows df)
      ∧ Forall2 (fun r r' =>
                   (∀ c, c ≠ col → r' !! c = r !! c)
                   ∧ ∃ t, to_datetime_scalar parse (column_format parse col df) (cell col r)
                          = Ok (Some t)
                          ∧ r' !! col = Some (VTimestamp t))
                kept (rows out).
Proof.
  intros Hcol Hrun. rewrite (filterByDateRange_present _ _ _ _ Hcol) in Hrun.
  apply df_filtered_shape in Hrun as (_ & _ & _ & Hrows & Hnorm & _).
  split; [exact Hnorm|]. rewrite Hrows.
  eapply filter_descends; [exact Hnorm|].
  intros r r1 Hn Hret. split; [apply (normalised_lookup _ _ _ _ _ Hn)|].
  destruct Hn as (o & Ho & ->).
  apply retained_timestamp in Hret as (t & Ht & _).
  change (<[col:=box o]> r) with (put col r (box o)) in Ht.
  rewrite cell_put in Ht. destruct o as [t'|]; [|discriminate].
  injection Ht as ->. exists t. split; [exact Ho|]. apply lookup_insert_eq.
Qed.

End Claims.

Example registros_filtered :
  filterByDateRange iso_parser created_at registros (ymd 2024 1 1) (ymd 2024 1 3)
  = Ok (registros_normalizados, registros_enero).
Proof. vm_compute. reflexivity. Qed.

Example registros_daily_counts :
  daily_counts created_at registros_enero
  = Ok [(ymd 2024 1 1, 2%nat); (ymd 2024 1 3, 1%nat)].
Proof. vm_compute. reflexivity. Qed.

Example registros_page :
  explorador_de_registros iso_parser registros (ymd 2024 1 1) (ymd 2024 1 3)
  = Ok [ info 3 (ymd 2024 1 1) (ymd 2024 1 3); subheader;
         bar_chart [(ymd 2024 1 1, 2%nat); (ymd 2024 1 3, 1%nat)];
         dataframe registros_enero ].
Proof. vm_compute. reflexivity. Qed.

Example registros_inverted :
  explorador_de_registros iso_parser registros (ymd 2024 2 1) (ymd 2024 1 1)
  = Ok [ info 0 (ymd 2024 2 1) (ymd 2024 1 1); subheader; warning_no_records;
         dataframe sin_registros ].
Proof. vm_compute. reflexivity. Qed.

Example sin_fechas_page :
  explorador_de_registros iso_parser sin_fechas (ymd 2024 1 1) (ymd 2024 1 3)
  = Raised TypeError.
Proof. vm_compute. reflexivity. Qed.

Example formatos_mixtos_page :
  explorador_de_registros iso_parser formatos_mixtos (ymd 2024 1 1) (ymd 2024 1 3)
  = Raised ValueError.
Proof. vm_compute. reflexivity. Qed.

Example jugadas_page :
  explorador_de_registros iso_parser jugadas (ymd 2024 1 1) (ymd 2024 1 3)
  = Ok [ warning_no_date_column; dataframe jugadas ].
Proof. vm_compute. reflexivity. Qed.

(** * The claims on the concrete tables *)

Lemma filterByDateRange_retains_in_range_witness :
  has_column created_at registros = true
  ∧ filterByDateRange iso_parser created_at registros (ymd 2024 1 1) (ymd 2024 1 3)
    = Ok (registros_normalizados, registros_enero)
  ∧ filterable iso_parser created_at registros = true
  ∧ Forall2 (fun r r1 => ∃ o,
               to_datetime_scalar iso_parser (column_format iso_parser created_at registros)
                 (cell created_at r) = Ok o
               ∧ r1 = <[created_at := box o]> r
               ∧ calendar_date (cell created_at r1) = ts_date <$> o)
            (rows registros) (rows registros_normalizados)
  ∧ rows registros_enero
    = List.filter (fun r1 => in_range (ymd 2024 1 1) (ymd 2024 1 3)
                               (calendar_date (cell created_at r1)))
                  (rows registros_normalizados)
  ∧ ∀ r1, r1 ∈ rows registros_enero ↔
          r1 ∈ rows registros_normalizados
          ∧ ∃ d, calendar_date (cell created_at r1) = Some d
                 ∧ ymd 2024 1 1 ≤ d ≤ ymd 2024 1 3.
Proof.
  assert (Hcol : has_column created_at registros = true) by reflexivity.
  assert (Hrun : filterByDateRange iso_parser created_at registros
                   (ymd 2024 1 1) (ymd 2024 1 3)
                 = Ok (registros_normalizados, registros_enero))
    by (vm_compute; reflexivity).
  exact (conj Hcol (conj Hrun
    (filterByDateRange_retains_in_range iso_parser created_at registros
       (ymd 2024 1 1) (ymd 2024 1 3) registros_normalizados registros_enero Hcol Hrun))).
Defined.

(** C1, as stated, fails: each of the two records of [formatos_mixtos]
    holds a timestamp that [pd.to_datetime] converts, on its own, to a date
    of the range; yet the filter retains neither: the format read off the
    first is applied to the second, and line 106 raises. *)
Lemma filterByDateRange_mixed_formats_raises :
  has_column created_at formatos_mixtos = true
  ∧ Forall (fun r => ∃ t,
              to_datetime iso_parser [cell created_at r] = Ok [VTimestamp t]
              ∧ ymd 2024 1 1 ≤ ts_date t ≤ ymd 2024 1 3)
           (rows formatos_mixtos)
  ∧ filterByDateRange iso_parser created_at formatos_mixtos (ymd 2024 1 1) (ymd 2024 1 3)
    = Raised ValueError
  ∧ ¬ ∃ df1 out,
        filterByDateRange iso_parser created_at formatos_mixtos
          (ymd 2024 1 1) (ymd 2024 1 3) = Ok (df1, out).
Proof.
  assert (Hrun : filterByDateRange iso_parser created_at formatos_mixtos
                   (ymd 2024 1 1) (ymd 2024 1 3) = Raised ValueError)
    by (vm_compute; reflexivity).
  split; [reflexivity|]. split; [|split; [exact Hrun|]].
  - repeat constructor.
    + exists (mkTimestamp (ymd 2024 1 1) 0 None).
      split; [vm_compute; reflexivity|]. vm_compute. split; discriminate.
    + exists (mkTimestamp (ymd 2024 1 3) 86399000000000 None).
      split; [vm_compute; reflexivity|]. vm_compute. split; discriminate.
  - intros (df1 & out & H). rewrite Hrun in H. discriminate.
Qed.

Lemma filterByDateRange_subsequence_witness :
  filterByDateRange iso_parser created_at registros (ymd 2024 1 1) (ymd 2024 1 3)
  = Ok (registros_normalizados, registros_enero)
  ∧ sublist (rows registros_enero) (rows registros_normalizados)
  ∧ length (rows registros_normalizados) = length (rows registros)
  ∧ ∃ kept, sublist kept (rows registros)
            ∧ Forall2 (fun r r' => r' = r ∨ normalised iso_parser created_at registros r r')
                      kept (rows registros_enero).
Proof.
  assert (Hrun : filterByDateRange iso_parser created_at registros
                   (ymd 2024 1 1) (ymd 2024 1 3)
                 = Ok (registros_normalizados, registros_enero))
    by (vm_compute; reflexivity).
  exact (conj Hrun
    (filterByDateRange_subsequence iso_parser created_at registros
       (ymd 2024 1 1) (ymd 2024 1 3) registros_normalizados registros_enero Hrun)).
Defined.

Lemma filterByDateRange_without_column_witness :
  has_column created_at jugadas = false
  ∧ filterByDateRange iso_parser created_at jugadas (ymd 2024 1 1) (ymd 2024 1 3)
    = Ok (jugadas, jugadas)
  ∧ (created_at = created_at →
     explorador_de_registros iso_parser jugadas (ymd 2024 1 1) (ymd 2024 1 3)
     = Ok [warning_no_date_column; dataframe jugadas]).
Proof.
  assert (Hcol : has_column created_at jugadas = false) by reflexivity.
  exact (conj Hcol
    (filterByDateRange_without_column iso_parser created_at jugadas
       (ymd 2024 1 1) (ymd 2024 1 3) Hcol)).
Defined.

Lemma filterByDateRange_idempotent_witness :
  filterByDateRange iso_parser created_at registros (ymd 2024 1 1) (ymd 2024 1 3)
  = Ok (registros_normalizados, registros_enero)
  ∧ filterByDateRange iso_parser created_at registros_enero (ymd 2024 1 1) (ymd 2024 1 3)
    = Ok (registros_enero, registros_enero).
Proof.
  assert (Hrun : filterByDateRange iso_parser created_at registros
                   (ymd 2024 1 1) (ymd 2024 1 3)
                 = Ok (registros_normalizados, registros_enero))
    by (vm_compute; reflexivity).
  exact (conj Hrun
    (filterByDateRange_idempotent iso_parser created_at registros
       (ymd 2024 1 1) (ymd 2024 1 3) registros_normalizados registros_enero Hrun)).
Defined.

Lemma inverted_range_is_empty_witness :
  has_column created_at registros = true
  ∧ ymd 2024 1 1 < ymd 2024 2 1
  ∧ filterByDateRange iso_parser created_at registros (ymd 2024 2 1) (ymd 2024 1 1)
    = Ok (registros_normalizados, sin_registros)
  ∧ sin_registros = {| columns := columns registros; rows := [] |}
  ∧ daily_counts created_at sin_registros = Ok []
  ∧ evolucion_de_registros created_at sin_registros = Ok [warning_no_records].
Proof.
  assert (Hcol : has_column created_at registros = true) by reflexivity.
  assert (Hinv : ymd 2024 1 1 < ymd 2024 2 1) by reflexivity.
  assert (Hrun : filterByDateRange iso_parser created_at registros
                   (ymd 2024 2 1) (ymd 2024 1 1)
                 = Ok (registros_normalizados, sin_registros))
    by (vm_compute; reflexivity).
  exact (conj Hcol (conj Hinv (conj Hrun
    (inverted_range_is_empty iso_parser created_at registros
       (ymd 2024 2 1) (ymd 2024 1 1) registros_normalizados sin_registros
       Hcol Hinv Hrun)))).
Defined.

(** C5, as stated, fails: on a table whose timestamps are all missing the
    filter does not return the empty table for an inverted range; the
    comparison of line 107 raises. *)
Lemma inverted_range_all_missing_raises :
  has_column created_at sin_fechas = true
  ∧ ymd 2024 1 1 < ymd 2024 2 1
  ∧ filterByDateRange iso_parser created_at sin_fechas (ymd 2024 2 1) (ymd 2024 1 1)
    = Raised TypeError
  ∧ ¬ ∃ df1,
        filterByDateRange iso_parser created_at sin_fechas (ymd 2024 2 1) (ymd 2024 1 1)
        = Ok (df1, {| columns := columns sin_fechas; rows := [] |}).
Proof.
  assert (Hrun : filterByDateRange iso_parser created_at sin_fechas
                   (ymd 2024 2 1) (ymd 2024 1 1) = Raised TypeError)
    by (vm_compute; reflexivity).
  split; [reflexivity|]. split; [reflexivity|]. split; [exact Hrun|].
  intros (df1 & H). rewrite Hrun in H. discriminate.
Qed.

Lemma daily_counts_ascending_exact_witness :
  has_column created_at registros = true
  ∧ filterByDateRange iso_parser created_at registros (ymd 2024 1 1) (ymd 2024 1 3)
    = Ok (registros_normalizados, registros_enero)
  ∧ ∃ dc,
      daily_counts created_at registros_enero = Ok dc
      ∧ StronglySorted Z.lt (dc.*1)
      ∧ NoDup (dc.*1)
      ∧ (∀ d, d ∈ dc.*1 ↔
              ∃ r, r ∈ rows registros_enero ∧ calendar_date (cell created_at r) = Some d)
      ∧ (∀ d n, (d, n) ∈ dc →
           (0 < n)%nat
           ∧ n = length (List.filter
                           (fun r => bool_decide (calendar_date (cell created_at r) = Some d))
                           (rows registros_enero))).
Proof.
  assert (Hcol : has_column created_at registros = true) by reflexivity.
  assert (Hrun : filterByDateRange iso_parser created_at registros
                   (ymd 2024 1 1) (ymd 2024 1 3)
                 = Ok (registros_normalizados, registros_enero))
    by (vm_compute; reflexivity).
  exact (conj Hcol (conj Hrun
    (daily_counts_ascending_exact iso_parser created_at registros
       (ymd 2024 1 1) (ymd 2024 1 3) registros_normalizados registros_enero Hcol Hrun))).
Defined.

Lemma daily_counts_sum_witness :
  has_column created_at registros = true
  ∧ filterByDateRange iso_parser created_at registros (ymd 2024 1 1) (ymd 2024 1 3)
    = Ok (registros_normalizados, registros_enero)
  ∧ ∃ dc, daily_counts created_at registros_enero = Ok dc
          ∧ total dc = len registros_enero.
Proof.
  assert (Hcol : has_column created_at registros = true) by reflexivity.
  assert (Hrun : filterByDateRange iso_parser created_at registros
                   (ymd 2024 1 1) (ymd 2024 1 3)
                 = Ok (registros_normalizados, registros_enero))
    by (vm_compute; reflexivity).
  exact (conj Hcol (conj Hrun
    (daily_counts_sum iso_parser created_at registros
       (ymd 2024 1 1) (ymd 2024 1 3) registros_normalizados registros_enero Hcol Hrun))).
Defined.

Lemma evolucion_empty_table_witness :
  rows sin_registros = []
  ∧ evolucion_de_registros created_at sin_registros = Ok [warning_no_records]
  ∧ (has_column created_at sin_registros = true →
     daily_counts created_at sin_registros = Ok []).
Proof.
  assert (Hrows : rows sin_registros = []) by reflexivity.
  exact (conj Hrows (evolucion_empty_table created_at sin_registros Hrows)).
Defined.

Example explorador_inverted_range :
  ∃ page,
    explorador_de_registros iso_parser registros (ymd 2024 2 1) (ymd 2024 1 1) = Ok page
    ∧ last page = Some (dataframe sin_registros).
Proof. eexists. split; vm_compute; reflexivity. Qed.

Lemma retained_records_frame_witness :
  has_column created_at registros = true
  ∧ filterByDateRange iso_parser created_at registros (ymd 2024 1 1) (ymd 2024 1 3)
    = Ok (registros_normalizados, registros_enero)
  ∧ Forall2 (normalised iso_parser created_at registros) (rows registros) (rows registros_normalizados)
  ∧ ∃ kept,
      sublist kept (rows registros)
      ∧ Forall2 (fun r r' =>
                   (∀ c, c ≠ created_at → r' !! c = r !! c)
                   ∧ ∃ t, to_datetime_scalar iso_parser
                            (column_format iso_parser created_at registros)
                            (cell created_at r) = Ok (Some t)
                          ∧ r' !! created_at = Some (VTimestamp t))
                kept (rows registros_enero).
Proof.
  assert (Hcol : has_column created_at registros = true) by reflexivity.
  assert (Hrun : filterByDateRange iso_parser created_at registros
                   (ymd 2024 1 1) (ymd 2024 1 3)
                 = Ok (registros_normalizados, registros_enero))
    by (vm_compute; reflexivity).
  exact (conj Hcol (conj Hrun
    (retained_records_frame iso_parser created_at registros
       (ymd 2024 1 1) (ymd 2024 1 3) registros_normalizados registros_enero Hcol Hrun))).
Defined.


(** * Further properties of the filter and of the per-day counts *)

Section Ranges.

Variable parse : DateParser.

Lemma retained_inter col s1 e1 s2 e2 r :
  retained col (Z.max s1 s2) (Z.min e1 e2) r
  = retained col s1 e1 r && retained col s2 e2 r.
Proof.
  unfold retained. destruct (calendar_date (cell col r)) as [d|]; simpl; [|reflexivity].
  destruct (Z.leb_spec (Z.max s1 s2) d), (Z.leb_spec d (Z.min e1 e2)),
    (Z.leb_spec s1 d), (Z.leb_spec d e1), (Z.leb_spec s2 d), (Z.leb_spec d e2);
    simpl; try reflexivity; lia.
Qed.

Lemma retained_wider col s e s' e' r :
  s' ≤ s → e ≤ e' → retained col s e r = true → retained col s' e' r = true.
Proof.
  unfold retained. intros Hs He (d & -> & Hd)%in_range_spec.
  apply in_range_spec. exists d. split; [reflexivity|lia].
Qed.

Lemma retained_day col d r :
  retained col d d r = bool_decide (calendar_date (cell col r) = Some d).
Proof.
  unfold retained. destruct (calendar_date (cell col r)) as [x|]; cbn [in_range].
  - destruct (bool_decide_reflect (Some x = Some d)) as [[= ->]|Hne].
    + rewrite !Z.leb_refl. reflexivity.
    + destruct (Z.leb_spec d x), (Z.leb_spec x d); simpl; try reflexivity.
      exfalso. apply Hne. f_equal. lia.
  - symmetry. apply bool_decide_eq_false_2. discriminate.
Qed.

Lemma filter_and {A : Type} (p q : A → bool) (l : list A) :
  List.filter q (List.filter p l) = List.filter (fun x => p x && q x) l.
Proof.
  induction l as [|x l IH]; simpl; [reflexivity|].
  destruct (p x); simpl; [destruct (q x); [f_equal|]|]; exact IH.
Qed.

Lemma filter_ext_on {A : Type} (p q : A → bool) (l : list A) :
  (∀ x, p x = q x) → List.filter p l = List.filter q l.
Proof.
  intros H. induction l as [|x l IH]; simpl; [reflexivity|].
  rewrite H, IH. reflexivity.
Qed.

Lemma sublist_filter_impl {A : Type} (p q : A → bool) (l : list A) :
  (∀ x, p x = true → q x = true) → sublist (List.filter p l) (List.filter q l).
Proof.
  intros H. induction l as [|x l IH]; simpl; [constructor|].
  destruct (p x) eqn:Hp.
  - rewrite (H x Hp). apply sublist_skip, IH.
  - destruct (q x); [apply sublist_cons|]; exact IH.
Qed.

Lemma length_filter_split {A : Type} (p q : A → bool) (l : list A) :
  (∀ x, p x && q x = false) →
  (length (List.filter p l) + length (List.filter q l))%nat
  = length (List.filter (fun x => p x || q x) l).
Proof.
  intros H. induction l as [|x l IH]; simpl; [reflexivity|].
  specialize (H x). destruct (p x), (q x); simpl in *; try discriminate; lia.
Qed.

(** The filter on another range, run on the same table: same normalised
    table, the rows that pass the other test. *)
Lemma df_filtered_other_range col df s e df1 out s' e' :
  df_filtered parse col df s e = Ok (df1, out) →
  df_filtered parse col df s' e'
  = Ok (df1, {| columns := columns df;
                rows := List.filter (retained col s' e') (rows df1) |}).
Proof.
  intros (Hcol & conv & Hconv & Hmiss & -> & _)%df_filtered_inv.
  apply df_filtered_Ok; assumption.
Qed.

(** The filter run on a filtered table. *)
Lemma df_filtered_on_filtered col df s e df1 out s' e' :
  df_filtered parse col df s e = Ok (df1, out) →
  df_filtered parse col out s' e'
  = Ok (out, {| columns := columns df;
                rows := List.filter (retained col s' e') (rows out) |}).
Proof.
  intros Hrun.
  pose proof (df_filtered_shape _ _ _ _ _ _ _ Hrun) as (_ & _ & Hco & _).
  apply filtered_column in Hrun as (Hcol & Hsome & Hret & ts & Huni & Hts).
  assert (Hconv : to_datetime parse (cell col <$> rows out) = Ok (cell col <$> rows out)).
  { rewrite Hts. apply to_datetime_boxed, Huni. }
  rewrite (df_filtered_Ok parse col out s' e' _ Hcol Hconv
             (retained_not_all_missing _ _ _ _ Hret)).
  assert (Hset : setitem out col (cell col <$> rows out) = out).
  { destruct out as [cs rs]. unfold setitem. simpl in *.
    rewrite Hcol. f_equal. rewrite imap_put by apply length_fmap.
    apply zip_put_id, Hsome. }
  rewrite Hset, Hco. reflexivity.
Qed.

(** X1: Widening the range keeps every record already retained, in order. *)
Theorem filterByDateRange_monotone col df s e s' e' df1 out :
  s' ≤ s → e ≤ e' →
  filterByDateRange parse col df s e = Ok (df1, out) →
  ∃ out', filterByDateRange parse col df s' e' = Ok (df1, out')
          ∧ sublist (rows out) (rows out').
Proof.
  intros Hs He Hrun. destruct (has_column col df) eqn:Hcol.
  - unfold filterByDateRange in Hrun |- *. rewrite Hcol in Hrun |- *.
    rewrite (df_filtered_other_range _ _ _ _ _ _ s' e' Hrun).
    eexists. split; [reflexivity|]. simpl.
    apply df_filtered_shape in Hrun as (_ & _ & _ & -> & _).
    apply sublist_filter_impl. intros r. apply retained_wider; assumption.
  - unfold filterByDateRange in Hrun |- *. rewrite Hcol in Hrun |- *.
    injection Hrun as <- <-. exists df. split; reflexivity.
Qed.

(** X2: Filtering by one range and then by another gives what filtering once
    by their intersection gives. *)
Theorem filterByDateRange_compose col df s1 e1 s2 e2 df1 out1 :
  filterByDateRange parse col df s1 e1 = Ok (df1, out1) →
  ∃ out12,
    filterByDateRange parse col out1 s2 e2 = Ok (out1, out12)
    ∧ filterByDateRange parse col df (Z.max s1 s2) (Z.min e1 e2) = Ok (df1, out12).
Proof.
  intros Hrun. destruct (has_column col df) eqn:Hcol.
  - unfold filterByDateRange in Hrun |- *. rewrite Hcol in Hrun |- *.
    pose proof (filtered_column _ _ _ _ _ _ _ Hrun) as (Hco & _).
    rewrite Hco.
    rewrite (df_filtered_on_filtered _ _ _ _ _ _ s2 e2 Hrun).
    rewrite (df_filtered_other_range _ _ _ _ _ _ (Z.max s1 s2) (Z.min e1 e2) Hrun).
    eexists. split; [reflexivity|]. do 3 f_equal.
    apply df_filtered_shape in Hrun as (_ & _ & _ & -> & _).
    rewrite filter_and. apply filter_ext_on. intros r. apply retained_inter.
  - unfold filterByDateRange in Hrun |- *. rewrite Hcol in Hrun |- *.
    injection Hrun as <- <-. exists df. rewrite Hcol. split; reflexivity.
Qed.

Lemma retained_adjacent col s m e r :
  retained col s m r = true → retained col (m + 1) e r = false.
Proof.
  unfold retained. destruct (calendar_date (cell col r)) as [d|]; simpl; [|discriminate].
  destruct (Z.leb_spec s d), (Z.leb_spec d m), (Z.leb_spec (m + 1) d),
    (Z.leb_spec d e); simpl; try reflexivity; try discriminate; lia.
Qed.

(** X3: Two adjacent ranges share no record and together hold the records of
    the range they make up: no record retained by the first is retained by
    the second, and their numbers add up. *)
Theorem filterByDateRange_adjacent col df s m e df1 out :
  has_column col df = true →
  s - 1 ≤ m ≤ e →
  filterByDateRange parse col df s e = Ok (df1, out) →
  ∃ a b,
    filterByDateRange parse col df s m = Ok (df1, a)
    ∧ filterByDateRange parse col df (m + 1) e = Ok (df1, b)
    ∧ (∀ r, r ∈ rows a → r ∉ rows b)
    ∧ (len a + len b)%nat = len out.
Proof.
  intros Hcol Hm Hrun. unfold filterByDateRange in Hrun |- *.
  rewrite Hcol in Hrun |- *.
  rewrite (df_filtered_other_range _ _ _ _ _ _ s m Hrun).
  rewrite (df_filtered_other_range _ _ _ _ _ _ (m + 1) e Hrun).
  eexists _, _. split; [reflexivity|]. split; [reflexivity|]. split.
  { cbn [rows]. intros r Ha Hb.
    apply list_elem_of_In, filter_In in Ha as [_ Ha].
    apply list_elem_of_In, filter_In in Hb as [_ Hb].
    rewrite (retained_adjacent _ _ _ _ _ Ha) in Hb. discriminate. }
  unfold len. simpl.
  apply df_filtered_shape in Hrun as (_ & _ & _ & -> & _).
  rewrite length_filter_split.
  - f_equal. apply filter_ext_on. intros r. unfold retained.
    destruct (calendar_date (cell col r)) as [d|]; simpl; [|reflexivity].
    destruct (Z.leb_spec s d), (Z.leb_spec d m), (Z.leb_spec (m + 1) d),
      (Z.leb_spec d e); simpl; try reflexivity; lia.
  - intros r. unfold retained.
    destruct (calendar_date (cell col r)) as [d|]; simpl; [|reflexivity].
    destruct (Z.leb_spec s d), (Z.leb_spec d m), (Z.leb_spec (m + 1) d),
      (Z.leb_spec d e); simpl; try reflexivity; lia.
Qed.

End Ranges.

(** ** The page as a whole *)

Section Page.

Variable parse : DateParser.

Lemma total_filtered col df s e df1 dff :
  df_filtered parse col df s e = Ok (df1, dff) →
  total (groupby_size (calendar_date <$> (cell col <$> rows dff))) = len dff.
Proof.
  intros Hrun. destruct (daily_counts_filtered _ _ _ _ _ _ _ Hrun) as [_ Hall].
  rewrite groupby_size_total, <- list_fmap_compose. unfold len.
  apply (omap_id_all (fun r => calendar_date (cell col r))), Hall.
Qed.

Lemma length_le_total h :
  Forall (fun p => (0 < p.2)%nat) h → (length h ≤ total h)%nat.
Proof.
  induction 1 as [|[k n] h Hp _ IH]; simpl in *; lia.
Qed.

(** X4: On a table with the column, a page that is computed has one of two
    shapes.  Either the filtered table has no record: the page announces 0
    records and carries the warning.  Or it has records: the page announces
    their number, and carries a chart with at least one bar whose counts
    add up to that number.  Either way the table shown is the filtered
    table, with the columns of the fetched one. *)
Theorem explorador_page_consistent df start_date end_date page :
  has_column created_at df = true →
  explorador_de_registros parse df start_date end_date = Ok page →
  ∃ df1 dff,
    df_filtered parse created_at df start_date end_date = Ok (df1, dff)
    ∧ columns dff = columns df
    ∧ ((rows dff = []
        ∧ page = [info 0 start_date end_date; subheader; warning_no_records;
                  dataframe dff])
       ∨ (rows dff ≠ []
          ∧ ∃ dc, daily_counts created_at dff = Ok dc
                  ∧ dc ≠ [] ∧ total dc = len dff
                  ∧ page = [info (len dff) start_date end_date; subheader;
                            bar_chart dc; dataframe dff])).
Proof.
  intros Hcol Hpage. unfold explorador_de_registros in Hpage. rewrite Hcol in Hpage.
  destruct (df_filtered parse created_at df start_date end_date)
    as [[df1 dff]|x] eqn:Hrun; [|discriminate].
  cbn [mbind result_bind] in Hpage. exists df1, dff. split; [reflexivity|].
  pose proof (df_filtered_shape _ _ _ _ _ _ _ Hrun) as (_ & _ & Hco & _).
  split; [exact Hco|].
  destruct (daily_counts_filtered _ _ _ _ _ _ _ Hrun) as [Hdc _].
  pose proof (total_filtered _ _ _ _ _ _ Hrun) as Htot.
  unfold evolucion_de_registros, empty in Hpage. rewrite Hco in Hpage.
  destruct (rows dff) as [|r rs] eqn:Hrows.
  - left. split; [reflexivity|]. cbn in Hpage. injection Hpage as <-.
    unfold len. rewrite Hrows. reflexivity.
  - right. split; [discriminate|].
    destruct (columns df) as [|c cs] eqn:Hcs.
    { unfold has_column in Hcol. rewrite Hcs in Hcol.
      apply bool_decide_eq_true in Hcol. apply elem_of_nil in Hcol. contradiction. }
    cbn [negb] in Hpage. rewrite Hdc in Hpage. cbn in Hpage. injection Hpage as <-.
    eexists. split; [exact Hdc|]. split; [|split; [exact Htot|reflexivity]].
    intros Hnil. rewrite Hnil in Htot. unfold len in Htot. rewrite Hrows in Htot.
    discriminate.
Qed.






End Page.

(** ** The chart against the range and against one-day filters *)

Section Chart.

Variable parse : DateParser.

Lemma sorted_within_length (l : list Z) s e :
  StronglySorted Z.lt l → Forall (fun x => s ≤ x ≤ e) l →
  Z.of_nat (length l) ≤ Z.max 0 (e - s + 1).
Proof.
  intros Hs. revert s. induction Hs as [|x l _ IH Hall]; intros s Hin; simpl length.
  - lia.
  - apply Forall_cons in Hin as [Hx Hin].
    assert (Forall (fun y => x + 1 ≤ y ≤ e) l) as Hl.
    { rewrite Forall_forall in Hall, Hin |- *. intros y Hy.
      specialize (Hall y Hy). specialize (Hin y Hy). lia. }
    specialize (IH (x + 1) Hl). lia.
Qed.

Lemma recorded_absent d h : d ∉ h.*1 → recorded d h = 0%nat.
Proof.
  induction h as [|[k n] h IH]; simpl; [reflexivity|].
  intros Hd. rewrite not_elem_of_cons in Hd. destruct Hd as [Hne Hd].
  destruct (Z.eqb_spec k d) as [->|_]; [contradiction|]. rewrite (IH Hd). reflexivity.
Qed.

(** X7: Every bar of the chart stands for a day of the range, so there are no
    more bars than days in the range, and no more bars than records. *)
Theorem daily_counts_within_range col df start_date end_date df1 dff :
  has_column col df = true →
  filterByDateRange parse col df start_date end_date = Ok (df1, dff) →
  ∃ dc,
    daily_counts col dff = Ok dc
    ∧ Forall (fun p => start_date ≤ p.1 ≤ end_date) dc
    ∧ Z.of_nat (length dc) ≤ Z.max 0 (end_date - start_date + 1)
    ∧ (length dc ≤ len dff)%nat.
Proof.
  intros Hcol Hrun. unfold filterByDateRange in Hrun. rewrite Hcol in Hrun.
  destruct (daily_counts_filtered _ _ _ _ _ _ _ Hrun) as [Hdc _].
  eexists. split; [exact Hdc|].
  set (keys := calendar_date <$> (cell col <$> rows dff)) in *.
  assert (Hin : Forall (fun d => start_date ≤ d ≤ end_date) (groupby_size keys).*1).
  { apply Forall_forall. intros d Hd. apply groupby_size_keys in Hd.
    unfold keys in Hd. rewrite <- list_fmap_compose in Hd.
    apply list_elem_of_fmap in Hd as (r & Hd & Hr). simpl in Hd.
    apply filtered_column in Hrun as (_ & _ & Hret & _).
    rewrite Forall_forall in Hret. specialize (Hret r Hr).
    apply retained_timestamp in Hret as (t & Ht & Hrange).
    rewrite Ht in Hd. injection Hd as ->. exact Hrange. }
  split; [|split].
  - apply Forall_fmap in Hin. exact Hin.
  - rewrite <- (length_fmap fst). apply sorted_within_length; [|exact Hin].
    apply groupby_size_sorted.
  - rewrite <- (total_filtered _ _ _ _ _ _ _ Hrun).
    apply length_le_total, groupby_size_positive.
Qed.

(** X8: The count charted for a day of the range is the number of records the
    filter returns for that day alone (zero when the day has no bar). *)
Theorem daily_count_is_one_day_filter col df start_date end_date df1 dff d :
  has_column col df = true →
  filterByDateRange parse col df start_date end_date = Ok (df1, dff) →
  start_date ≤ d ≤ end_date →
  ∃ dc day,
    daily_counts col dff = Ok dc
    ∧ filterByDateRange parse col df d d = Ok (df1, day)
    ∧ len day = recorded d dc.
Proof.
  intros Hcol Hrun Hd. unfold filterByDateRange in Hrun |- *. rewrite Hcol in Hrun |- *.
  destruct (daily_counts_filtered _ _ _ _ _ _ _ Hrun) as [Hdc _].
  rewrite (df_filtered_other_range _ _ _ _ _ _ _ d d Hrun).
  eexists _, _. split; [exact Hdc|]. split; [reflexivity|].
  rewrite groupby_size_recorded. unfold occurrences, len. simpl.
  rewrite <- list_fmap_compose, length_filter_fmap.
  apply df_filtered_shape in Hrun as (_ & _ & _ & -> & _).
  rewrite filter_and. f_equal. apply filter_ext_on. intros r. simpl.
  rewrite retained_day.
  destruct (bool_decide_reflect (calendar_date (cell col r) = Some d)) as [Heq|Hne].
  - unfold retained. rewrite Heq. simpl.
    destruct (Z.leb_spec start_date d), (Z.leb_spec d end_date); simpl;
      try reflexivity; lia.
  - rewrite andb_false_r. reflexivity.
Qed.

(** Two ascending histograms with positive counts that record the same
    count for every date are the same histogram. *)
Lemma histogram_ext (h1 h2 : list (Z * nat)) :
  StronglySorted Z.lt (h1.*1) → StronglySorted Z.lt (h2.*1) →
  Forall (fun p => (0 < p.2)%nat) h1 → Forall (fun p => (0 < p.2)%nat) h2 →
  (∀ d, recorded d h1 = recorded d h2) → h1 = h2.
Proof.
  revert h2. induction h1 as [|[k1 n1] h1 IH]; intros [|[k2 n2] h2] Hs1 Hs2 Hp1 Hp2 Hrec.
  - reflexivity.
  - apply Forall_cons in Hp2 as [Hp _]. specialize (Hrec k2). simpl in *.
    rewrite Z.eqb_refl in Hrec. lia.
  - apply Forall_cons in Hp1 as [Hp _]. specialize (Hrec k1). simpl in *.
    rewrite Z.eqb_refl in Hrec. lia.
  - simpl in Hs1, Hs2.
    apply StronglySorted_inv in Hs1 as [Hs1 Hall1].
    apply StronglySorted_inv in Hs2 as [Hs2 Hall2].
    apply Forall_cons in Hp1 as [Hn1 Hp1]. apply Forall_cons in Hp2 as [Hn2 Hp2].
    simpl in Hn1, Hn2.
    assert (Hout1 : ∀ d, d ≤ k1 → recorded d h1 = 0%nat).
    { intros d Hd. apply recorded_absent. intros Hin.
      rewrite Forall_forall in Hall1. specialize (Hall1 d Hin). lia. }
    assert (Hout2 : ∀ d, d ≤ k2 → recorded d h2 = 0%nat).
    { intros d Hd. apply recorded_absent. intros Hin.
      rewrite Forall_forall in Hall2. specialize (Hall2 d Hin). lia. }
    assert (k1 = k2) as <-.
    { destruct (Z.lt_trichotomy k1 k2) as [Hlt|[Heq|Hgt]]; [|exact Heq|].
      - specialize (Hrec k1). simpl in Hrec. rewrite Z.eqb_refl in Hrec.
        destruct (Z.eqb_spec k2 k1); [lia|]. rewrite Hout2 in Hrec by lia. lia.
      - specialize (Hrec k2). simpl in Hrec. rewrite Z.eqb_refl in Hrec.
        destruct (Z.eqb_spec k1 k2); [lia|]. rewrite Hout1 in Hrec by lia. lia. }
    assert (n1 = n2) as <-.
    { specialize (Hrec k1). simpl in Hrec. rewrite Z.eqb_refl in Hrec.
      rewrite Hout1, Hout2 in Hrec by lia. lia. }
    f_equal. apply IH; try assumption.
    intros d. specialize (Hrec d). simpl in Hrec.
    destruct (Z.eqb_spec k1 d) as [Heq|_]; [|lia].
    rewrite Hout1, Hout2 by lia. reflexivity.
Qed.

Lemma occurrences_Permutation d keys keys' :
  keys ≡ₚ keys' → occurrences d keys = occurrences d keys'.
Proof.
  unfold occurrences. induction 1 as [|o l l' _ IH|o o' l|l l' l'' _ IH1 _ IH2]; simpl.
  - reflexivity.
  - destruct (bool_decide (o = Some d)); simpl; rewrite IH; reflexivity.
  - destruct (bool_decide (o = Some d)), (bool_decide (o' = Some d)); reflexivity.
  - rewrite IH1. exact IH2.
Qed.

Lemma groupby_size_Permutation keys keys' :
  keys ≡ₚ keys' → groupby_size keys = groupby_size keys'.
Proof.
  intros Hperm. apply histogram_ext; try apply groupby_size_sorted;
    try apply groupby_size_positive.
  intros d. rewrite !groupby_size_recorded. apply occurrences_Permutation, Hperm.
Qed.

Lemma dt_date_Ok s ds :
  dt_date s = Ok ds →
  ds = calendar_date <$> s ∧ Forall (fun v => dt_date_scalar v = Ok (calendar_date v)) s.
Proof.
  unfold dt_date. intros H%traverse_Forall2.
  induction H as [|v o s ds Hv _ [-> IH]]; [split; [reflexivity|constructor]|].
  assert (Ho : o = calendar_date v).
  { destruct v; simpl in Hv; try discriminate; injection Hv as <-; reflexivity. }
  subst o. split; [reflexivity|]. constructor; assumption.
Qed.

(** X9: The per-day counts do not depend on the order of the records: two
    tables with the same columns whose rows are a rearrangement of each
    other give the same counts. *)
Theorem daily_counts_order_independent col dff dff' dc :
  columns dff' = columns dff →
  rows dff' ≡ₚ rows dff →
  daily_counts col dff = Ok dc →
  daily_counts col dff' = Ok dc.
Proof.
  intros Hcols Hperm. unfold daily_counts, getitem, has_column. rewrite Hcols.
  destruct (bool_decide (col ∈ columns dff)); cbn [mbind result_bind]; [|discriminate].
  destruct (dt_date (cell col <$> rows dff)) as [ds|x] eqn:Hds;
    cbn [mbind result_bind]; [|discriminate].
  intros [= <-]. apply dt_date_Ok in Hds as [-> Hall].
  assert (Hall' : Forall (fun v => dt_date_scalar v = Ok (calendar_date v))
                         (cell col <$> rows dff')).
  { rewrite Forall_forall in Hall |- *. intros v Hv. apply Hall.
    rewrite <- Hperm. exact Hv. }
  unfold dt_date. rewrite (traverse_total _ _ _ Hall'). cbn [mbind result_bind].
  f_equal. apply groupby_size_Permutation. rewrite Hperm. reflexivity.
Qed.

End Chart.

(** * The sidebar *)

Section Sidebar.

Variable parse : DateParser.

(** Bars lie in the range; there are at most as many as days in it. *)
Lemma chart_within col df s e df1 dff :
  df_filtered parse col df s e = Ok (df1, dff) →
  let dc := groupby_size (calendar_date <$> (cell col <$> rows dff)) in
  daily_counts col dff = Ok dc
  ∧ Forall (fun p => s ≤ p.1 ≤ e) dc
  ∧ Z.of_nat (length dc) ≤ Z.max 0 (e - s + 1).
Proof.
  intros Hrun dc. destruct (daily_counts_filtered _ _ _ _ _ _ _ Hrun) as [Hdc _].
  split; [exact Hdc|].
  assert (Hin : Forall (fun d => s ≤ d ≤ e) dc.*1).
  { apply Forall_forall. intros d Hd. apply groupby_size_keys in Hd.
    rewrite <- list_fmap_compose in Hd.
    apply list_elem_of_fmap in Hd as (r & Hd & Hr). simpl in Hd.
    apply filtered_column in Hrun as (_ & _ & Hret & _).
    rewrite Forall_forall in Hret. specialize (Hret r Hr).
    apply retained_timestamp in Hret as (t & Ht & Hrange).
    rewrite Ht in Hd. injection Hd as ->. exact Hrange. }
  split.
  - apply Forall_fmap in Hin. exact Hin.
  - rewrite <- (length_fmap fst). apply sorted_within_length; [|exact Hin].
    apply groupby_size_sorted.
Qed.

(** X10: When the sidebar shows its error the first tab is computed all the
    same.  On a table with the column, unless lines 106-107 raise, the page
    announces 0 records, warns that there is none, and shows the table with
    its columns and no row. *)
Theorem sidebar_error_page df start_date end_date page :
  sidebar_error start_date end_date = true →
  has_column created_at df = true →
  explorador_de_registros parse df start_date end_date = Ok page →
  page = [ info 0 start_date end_date; subheader; warning_no_records;
           dataframe {| columns := columns df; rows := [] |} ].
Proof.
  unfold sidebar_error. intros Hinv%Z.ltb_lt Hcol Hpage.
  unfold explorador_de_registros in Hpage. rewrite Hcol in Hpage.
  destruct (df_filtered parse created_at df start_date end_date)
    as [[df1 dff]|x] eqn:Hrun; [|discriminate].
  apply df_filtered_inv in Hrun as (_ & conv & _ & _ & _ & Hout).
  rewrite filter_none in Hout by (intros r; apply in_range_inverted, Hinv).
  subst dff. cbn in Hpage. injection Hpage as <-. reflexivity.
Qed.

(** X11: With the dates the sidebar proposes (the last 30 days, today
    included) the error is not shown, and the chart of the first tab has
    at most 31 bars, none outside those days. *)
Theorem default_range_chart col df today start df1 dff :
  default_start today = Some start →
  has_column col df = true →
  filterByDateRange parse col df start today = Ok (df1, dff) →
  sidebar_error start today = false
  ∧ ∃ dc, daily_counts col dff = Ok dc
          ∧ (length dc ≤ 31)%nat
          ∧ Forall (fun p => today - 30 ≤ p.1 ≤ today) dc.
Proof.
  unfold default_start, sidebar_error. intros Hstart Hcol Hrun.
  destruct (1 <=? today - 30); [|discriminate]. injection Hstart as <-.
  split; [apply Z.ltb_ge; lia|].
  unfold filterByDateRange in Hrun. rewrite Hcol in Hrun.
  destruct (chart_within _ _ _ _ _ _ Hrun) as (Hdc & Hin & Hlen).
  eexists. split; [exact Hdc|]. split; [lia|exact Hin].
Qed.

End Sidebar.

(** * [format_date] *)

Lemma digit_digit_char n : digit (digit_char n) = Some (n mod 10).
Proof.
  unfold digit, digit_char.
  pose proof (Z.mod_pos_bound n 10 ltac:(lia)) as Hb.
  rewrite nat_ascii_embedding by lia. rewrite Z2Nat.id by lia.
  destruct (Z.leb_spec 48 (48 + n mod 10)), (Z.leb_spec (48 + n mod 10) 57);
    simpl; try lia. f_equal. lia.
Qed.

Lemma number_two_digits n :
  0 ≤ n < 100 → number 0 (two_digits n) = Some n.
Proof.
  intros Hn. unfold two_digits. cbn [number].
  rewrite !digit_digit_char. cbn [mbind option_bind]. f_equal.
  Z.div_mod_to_equations. lia.
Qed.

Lemma year_digits_four y :
  1000 ≤ y ≤ 9999 →
  year_digits y
  = [digit_char (y / 1000); digit_char (y / 100); digit_char (y / 10); digit_char y]
  ∧ number 0 (year_digits y) = Some y.
Proof.
  intros Hy. unfold year_digits.
  destruct (Z.ltb_spec y 10); [lia|]. destruct (Z.ltb_spec y 100); [lia|].
  destruct (Z.ltb_spec y 1000); [lia|]. split; [reflexivity|].
  cbn [number]. rewrite !digit_digit_char. cbn [mbind option_bind]. f_equal.
  Z.div_mod_to_equations. lia.
Qed.

(** The ISO reading of ten characters [YYYY-MM-DD]. *)
Lemma parse_iso_fields y1 y2 y3 y4 m1 m2 d1 d2 y m d :
  number 0 [y1; y2; y3; y4] = Some y →
  number 0 [m1; m2] = Some m →
  number 0 [d1; d2] = Some d →
  valid_date (mkDate y m d) = true →
  parse_iso (String.string_of_list_ascii
               [y1; y2; y3; y4; "-"%char; m1; m2; "-"%char; d1; d2])
  = Some (Some (mkTimestamp (ymd y m d) 0 None)).
Proof.
  intros Hy Hm Hd Hv. unfold parse_iso.
  rewrite String.list_ascii_of_string_of_list_ascii.
  cbn [String.string_of_list_ascii].
  rewrite bool_decide_eq_false_2 by discriminate.
  rewrite bool_decide_eq_false_2 by discriminate.
  cbn [orb]. unfold iso_date. rewrite Hy, Hm, Hd. cbn [mbind option_bind].
  unfold valid_date in Hv. simpl in Hv.
  repeat (apply andb_prop in Hv as [Hv ?]).
  replace ((1 <=? y) && (1 <=? m) && (m <=? 12) && (1 <=? d) && (d <=? days_in_month y m))
    with true; [reflexivity|].
  symmetry. repeat (apply andb_true_intro; split); assumption.
Qed.

(** X12: For a date from the year 1000 on, [format_date] gives ten characters
    [YYYY-MM-DD] whose three groups of digits are the year, the month and
    the day, and which read back, as an ISO date, as that date. *)
Theorem format_date_iso d :
  valid_date d = true →
  1000 ≤ year d →
  ∃ y1 y2 y3 y4 m1 m2 d1 d2,
    format_date d
    = String.string_of_list_ascii [y1; y2; y3; y4; "-"%char; m1; m2; "-"%char; d1; d2]
    ∧ number 0 [y1; y2; y3; y4] = Some (year d)
    ∧ number 0 [m1; m2] = Some (month d)
    ∧ number 0 [d1; d2] = Some (day d)
    ∧ parse_iso (format_date d) = Some (Some (mkTimestamp (toordinal d) 0 None)).
Proof.
  intros Hv Hy. pose proof Hv as Hv'. unfold valid_date in Hv'.
  repeat (apply andb_prop in Hv' as [Hv' ?]).
  repeat match goal with H : (_ <=? _) = true |- _ => apply Z.leb_le in H end.
  assert (day d ≤ 31).
  { unfold days_in_month in *.
    repeat match goal with H : context [if ?b then _ else _] |- _ => destruct b end; lia. }
  destruct (year_digits_four (year d) ltac:(lia)) as [Hyd Hyn].
  pose proof (number_two_digits (month d) ltac:(lia)) as Hmn.
  pose proof (number_two_digits (day d) ltac:(lia)) as Hdn.
  assert (Hfmt : format_date d
                 = String.string_of_list_ascii
                     [digit_char (year d / 1000); digit_char (year d / 100);
                      digit_char (year d / 10); digit_char (year d); "-"%char;
                      digit_char (month d / 10); digit_char (month d); "-"%char;
                      digit_char (day d / 10); digit_char (day d)]).
  { unfold format_date. rewrite Hyd. reflexivity. }
  rewrite Hyd in Hyn. unfold two_digits in Hmn, Hdn.
  do 8 eexists. split; [exact Hfmt|]. split; [exact Hyn|].
  split; [exact Hmn|]. split; [exact Hdn|].
  rewrite Hfmt. unfold toordinal.
  apply parse_iso_fields; assumption.
Qed.

(** X13: Two dates from the year 1000 on that format alike are the same date. *)
Theorem format_date_injective d d' :
  valid_date d = true → 1000 ≤ year d →
  valid_date d' = true → 1000 ≤ year d' →
  format_date d = format_date d' →
  d = d'.
Proof.
  intros Hv Hy Hv' Hy' Heq.
  destruct (format_date_iso d Hv Hy)
    as (y1 & y2 & y3 & y4 & m1 & m2 & d1 & d2 & Hf & Hyn & Hmn & Hdn & _).
  destruct (format_date_iso d' Hv' Hy')
    as (y1' & y2' & y3' & y4' & m1' & m2' & d1' & d2' & Hf' & Hyn' & Hmn' & Hdn' & _).
  rewrite Hf, Hf' in Heq.
  apply (f_equal String.list_ascii_of_string) in Heq.
  rewrite !String.list_ascii_of_string_of_list_ascii in Heq.
  injection Heq as -> -> -> -> -> -> -> ->.
  rewrite Hyn in Hyn'. rewrite Hmn in Hmn'. rewrite Hdn in Hdn'.
  destruct d, d'. simpl in *. congruence.
Qed.

(** * The analytics reports *)

#[global] Instance key_le_trans : Transitive key_le.
Proof. intros a b c. unfold key_le. lia. Qed.

#[global] Instance key_le_total : Total key_le.
Proof. intros a b. unfold key_le. lia. Qed.

Lemma for_each_Forall2 {A B : Type} (f : A → outcome B) (l : list A) (l' : list B) :
  for_each f l = Returned l' ↔ Forall2 (fun x y => f x = Returned y) l l'.
Proof.
  revert l'. induction l as [|x l IH]; intros l'; simpl.
  - split.
    + intros [= <-]. constructor.
    + intros H. inversion H. reflexivity.
  - split.
    + destruct (f x) as [y|e] eqn:Hx; cbn [mbind outcome_bind]; [|discriminate].
      destruct (for_each f l) as [ys|e] eqn:Hl; cbn [mbind outcome_bind]; [|discriminate].
      intros [= <-]. constructor; [assumption|]. apply IH. reflexivity.
    + intros H. inversion H as [|? y ? ys Hx Hl]; subst.
      rewrite Hx. cbn [mbind outcome_bind]. apply IH in Hl. rewrite Hl. reflexivity.
Qed.

Lemma traverse_int_cell hs : traverse int_cell (VInt <$> hs) = Ok hs.
Proof.
  induction hs as [|h hs IH]; [reflexivity|].
  cbn [fmap list_fmap traverse int_cell mbind result_bind].
  change (list_fmap _ _ VInt hs) with (VInt <$> hs). rewrite IH. reflexivity.
Qed.

Lemma traverse_int_cell_Ok s hs : traverse int_cell s = Ok hs → s = VInt <$> hs.
Proof.
  intros H%traverse_Forall2. induction H as [|v h s hs Hv _ IH]; [reflexivity|].
  destruct v; simpl in Hv; try discriminate. injection Hv as ->.
  rewrite IH. reflexivity.
Qed.

(** Sorting by an integer column: same rows in another order, keys
    ascending, columns untouched; a missing label is a [KeyError]. *)
Lemma sort_values_Ok df by_ out :
  sort_values df by_ = Ok out →
  has_column by_ df = true
  ∧ columns out = columns df
  ∧ rows out ≡ₚ rows df
  ∧ ∃ hs, cell by_ <$> rows out = VInt <$> hs ∧ StronglySorted Z.le hs.
Proof.
  unfold sort_values, getitem. destruct (has_column by_ df) eqn:Hcol;
    cbn [mbind result_bind]; [|discriminate].
  destruct (traverse int_cell (cell by_ <$> rows df)) as [keys|x] eqn:Hkeys;
    cbn [mbind result_bind]; [|discriminate].
  intros [= <-]. simpl.
  pose proof (traverse_length _ _ _ Hkeys) as Hlen. rewrite length_fmap in Hlen.
  apply traverse_int_cell_Ok in Hkeys.
  set (sorted := merge_sort key_le (zip keys (rows df))).
  assert (Hperm : sorted ≡ₚ zip keys (rows df)) by apply merge_sort_Permutation.
  split; [reflexivity|]. split; [reflexivity|]. split.
  - rewrite Hperm. rewrite snd_zip by lia. reflexivity.
  - exists (sorted.*1). split.
    + assert (Hinv : Forall (fun p => cell by_ p.2 = VInt p.1) (zip keys (rows df))).
      { clear -Hkeys. revert keys Hkeys.
        induction (rows df) as [|r rs IH]; intros [|k ks] Hk; simpl in *;
          try constructor; try discriminate.
        - injection Hk as Hk _. exact Hk.
        - injection Hk as _ Hk. apply IH, Hk. }
      rewrite <- Hperm in Hinv. clear -Hinv.
      induction Hinv as [|p l Hp _ IH]; [reflexivity|].
      cbn [fmap list_fmap]. rewrite Hp. f_equal. exact IH.
    + apply (StronglySorted_fmap fst key_le Z.le); [auto|].
      apply StronglySorted_merge_sort; apply _.
Qed.

Lemma sort_values_no_column df by_ :
  has_column by_ df = false → sort_values df by_ = Raised KeyError.
Proof.
  intros H. unfold sort_values. rewrite (getitem_absent _ _ H). reflexivity.
Qed.

Section ReportProperties.

Variable run_report : RunReportRequest → list Row.
Variable py_int : string → option Z.

Lemma hourly_record_Returned r rec :
  hourly_record py_int r = Returned rec →
  ∃ hs us h u,
    dimension_values r !! 0%nat = Some hs ∧ py_int hs = Some h
    ∧ metric_values r !! 0%nat = Some us ∧ py_int us = Some u
    ∧ rec = {[ "Hora"%string := VInt h; "Usuarios"%string := VInt u ]}.
Proof.
  unfold hourly_record, index, int_of.
  destruct (dimension_values r !! 0%nat) as [hs|]; cbn [mbind outcome_bind]; [|discriminate].
  destruct (py_int hs) as [h|] eqn:Hh; cbn [mbind outcome_bind]; [|discriminate].
  destruct (metric_values r !! 0%nat) as [us|]; cbn [mbind outcome_bind]; [|discriminate].
  destruct (py_int us) as [u|] eqn:Hu; cbn [mbind outcome_bind]; [|discriminate].
  intros [= <-]. exists hs, us, h, u. auto.
Qed.

Lemma pages_record_Returned r rec :
  pages_record py_int r = Returned rec ↔
  ∃ t f us u,
    dimension_values r !! 0%nat = Some t
    ∧ dimension_values r !! 1%nat = Some f
    ∧ metric_values r !! 0%nat = Some us ∧ py_int us = Some u
    ∧ rec = {[ "Título"%string := VStr t; "Fuente"%string := VStr f;
               "Usuarios"%string := VInt u ]}.
Proof.
  unfold pages_record, index, int_of. split.
  - destruct (dimension_values r !! 0%nat) as [t|]; cbn [mbind outcome_bind]; [|discriminate].
    destruct (dimension_values r !! 1%nat) as [f|]; cbn [mbind outcome_bind]; [|discriminate].
    destruct (metric_values r !! 0%nat) as [us|]; cbn [mbind outcome_bind]; [|discriminate].
    destruct (py_int us) as [u|] eqn:Hu; cbn [mbind outcome_bind]; [|discriminate].
    intros [= <-]. exists t, f, us, u. auto.
  - intros (t & f & us & u & -> & -> & -> & Hu & ->). cbn [mbind outcome_bind].
    rewrite Hu. reflexivity.
Qed.

(** X14: A report without rows makes [get_ga4_hourly] raise [KeyError]: the
    frame built from no dict has no column [Hora] to sort by.  The hourly
    block of the second tab raises with it, and so do the two columns of
    that tab: the pages are not fetched. *)
Theorem get_ga4_hourly_empty_report property_id start end_ :
  run_report (hourly_request property_id start end_) = [] →
  get_ga4_hourly run_report py_int property_id start end_ = Failed (Exn KeyError)
  ∧ patron_horario run_report py_int property_id start end_ = Failed (Exn KeyError)
  ∧ columnas run_report py_int property_id start end_ = Failed (Exn KeyError).
Proof.
  intros Hrows. assert (H : get_ga4_hourly run_report py_int property_id start end_
                            = Failed (Exn KeyError)).
  { unfold get_ga4_hourly. rewrite Hrows. reflexivity. }
  assert (H' : patron_horario run_report py_int property_id start end_
               = Failed (Exn KeyError)).
  { unfold patron_horario. rewrite H. reflexivity. }
  split; [exact H|]. split; [exact H'|]. unfold columnas. rewrite H'. reflexivity.
Qed.

(** X15: When [get_ga4_hourly] returns, the report had rows, and the frame
    holds one record per row of the report (its hour and its users, as
    integers), rearranged so that the hours ascend.  The frame is never
    empty, so the hourly block always draws its chart. *)
Theorem get_ga4_hourly_sorted property_id start end_ df :
  get_ga4_hourly run_report py_int property_id start end_ = Returned df →
  run_report (hourly_request property_id start end_) ≠ []
  ∧ columns df = ["Hora"; "Usuarios"]%string
  ∧ (∃ data,
       Forall2 (fun r rec => hourly_record py_int r = Returned rec)
               (run_report (hourly_request property_id start end_)) data
       ∧ rows df ≡ₚ data)
  ∧ (∃ hs, cell "Hora" <$> rows df = VInt <$> hs ∧ StronglySorted Z.le hs)
  ∧ patron_horario run_report py_int property_id start end_
    = Returned [subheader_horario; area_chart df].
Proof.
  intros Hrun. pose proof Hrun as Hrun'. unfold get_ga4_hourly in Hrun.
  destruct (for_each (hourly_record py_int)
              (run_report (hourly_request property_id start end_)))
    as [data|x] eqn:Hdata; cbn [mbind outcome_bind] in Hrun; [|discriminate].
  destruct (sort_values _ "Hora") as [out|x] eqn:Hsort; simpl in Hrun; [|discriminate].
  injection Hrun as ->.
  apply sort_values_Ok in Hsort as (Hcol & Hcols & Hperm & Hsorted).
  simpl in Hperm. apply for_each_Forall2 in Hdata.
  destruct data as [|rec data]; [discriminate|]. simpl in Hcols.
  split; [|split; [exact Hcols|split; [|split; [exact Hsorted|]]]].
  - intros Hnil. rewrite Hnil in Hdata. inversion Hdata.
  - exists (rec :: data). split; assumption.
  - unfold patron_horario. rewrite Hrun'. cbn [mbind outcome_bind].
    unfold empty. rewrite Hcols.
    destruct (rows df) as [|r rs] eqn:Hrows; [|reflexivity].
    apply Permutation_nil_l in Hperm. discriminate.
Qed.

(** X16: [get_ga4_pages_source] returns exactly when every row of the report
    has two dimension values and a metric value that reads as an integer;
    the frame then holds, in the order of the report, one record per row
    with its title, its source and its users. *)
Theorem get_ga4_pages_source_records property_id start end_ df :
  get_ga4_pages_source run_report py_int property_id start end_ = Returned df ↔
  ∃ data,
    Forall2 (fun r rec =>
               ∃ t f us u,
                 dimension_values r !! 0%nat = Some t
                 ∧ dimension_values r !! 1%nat = Some f
                 ∧ metric_values r !! 0%nat = Some us ∧ py_int us = Some u
                 ∧ rec = {[ "Título"%string := VStr t; "Fuente"%string := VStr f;
                            "Usuarios"%string := VInt u ]})
            (run_report (pages_request property_id start end_)) data
    ∧ df = DataFrame_of_dicts ["Título"; "Fuente"; "Usuarios"]%string data.
Proof.
  unfold get_ga4_pages_source. split.
  - destruct (for_each _ _) as [data|x] eqn:Hdata; cbn [mbind outcome_bind];
      [|discriminate].
    intros [= <-]. exists data. split; [|reflexivity].
    apply for_each_Forall2 in Hdata. eapply Forall2_impl; [exact Hdata|].
    intros r rec. apply pages_record_Returned.
  - intros (data & Hdata & ->).
    assert (for_each (pages_record py_int)
              (run_report (pages_request property_id start end_)) = Returned data) as ->.
    { apply for_each_Forall2. eapply Forall2_impl; [exact Hdata|].
      intros r rec. apply pages_record_Returned. }
    reflexivity.
Qed.

(** X17: A report without rows gives [get_ga4_pages_source] a frame without
    rows or columns, and the block of the second tab then shows its
    heading alone: no table, no exception. *)
Theorem get_ga4_pages_source_empty_report property_id start end_ :
  run_report (pages_request property_id start end_) = [] →
  get_ga4_pages_source run_report py_int property_id start end_
  = Returned {| columns := []; rows := [] |}
  ∧ top_paginas run_report py_int property_id start end_ = Returned [subheader_paginas].
Proof.
  intros Hrows.
  assert (H : get_ga4_pages_source run_report py_int property_id start end_
              = Returned {| columns := []; rows := [] |}).
  { unfold get_ga4_pages_source. rewrite Hrows. reflexivity. }
  split; [exact H|]. unfold top_paginas. rewrite H. reflexivity.
Qed.

End ReportProperties.

Section PagesTable.

Variable run_report : RunReportRequest → list Row.
Variable py_int : string → option Z.

Lemma foldr_max_spec (k : Z) (ks : list Z) :
  (∀ n, n ∈ k :: ks → n ≤ foldr Z.max k ks) ∧ foldr Z.max k ks ∈ k :: ks.
Proof.
  induction ks as [|x ks [IHle IHin]]; simpl.
  - split; [|left]. intros n Hn. apply list_elem_of_singleton in Hn. lia.
  - split.
    + intros n Hn. rewrite !elem_of_cons in Hn.
      destruct Hn as [->|[->|Hn]].
      * specialize (IHle k ltac:(left)). lia.
      * lia.
      * specialize (IHle n ltac:(right; exact Hn)). lia.
    + destruct (Z.max_spec x (foldr Z.max k ks)) as [[_ ->]|[_ ->]].
      * apply elem_of_cons in IHin as [->|Hin]; [left|right; right; exact Hin].
      * right. left.
Qed.

Lemma int_column c (l : list (gmap string value)) :
  Forall (fun rec => ∃ u, cell c rec = VInt u) l → ∃ us, cell c <$> l = VInt <$> us.
Proof.
  induction 1 as [|rec l [u Hu] _ [us IH]]; [exists []; reflexivity|].
  exists (u :: us). cbn [fmap list_fmap]. rewrite Hu. f_equal. exact IH.
Qed.

Lemma pages_record_usuarios r rec :
  pages_record py_int r = Returned rec → ∃ u, cell "Usuarios" rec = VInt u.
Proof.
  intros (t & f & us & u & _ & _ & _ & _ & ->)%pages_record_Returned.
  exists u. reflexivity.
Qed.

(** X18: When the table of pages is shown, the bound given to its progress
    bars is the number of users of one of its records, and no record has
    more users than that.  The table is shown exactly when the frame has a
    record. *)
Theorem top_paginas_max_value property_id start end_ page :
  top_paginas run_report py_int property_id start end_ = Returned page →
  ∃ df,
    get_ga4_pages_source run_report py_int property_id start end_ = Returned df
    ∧ ((rows df = [] ∧ page = [subheader_paginas])
       ∨ (rows df ≠ []
          ∧ ∃ max_value,
              page = [subheader_paginas; pages_table df max_value]
              ∧ (∀ r, r ∈ rows df → ∃ n, cell "Usuarios" r = VInt n ∧ n ≤ max_value)
              ∧ ∃ r, r ∈ rows df ∧ cell "Usuarios" r = VInt max_value)).
Proof.
  unfold top_paginas. intros Hpage.
  destruct (get_ga4_pages_source run_report py_int property_id start end_)
    as [df|x] eqn:Hdf; cbn [mbind outcome_bind] in Hpage; [|discriminate].
  exists df. split; [reflexivity|].
  unfold get_ga4_pages_source in Hdf.
  destruct (for_each _ _) as [data|x] eqn:Hdata; cbn [mbind outcome_bind] in Hdf;
    [|discriminate].
  injection Hdf as <-. apply for_each_Forall2 in Hdata.
  destruct data as [|rec data].
  { left. split; [reflexivity|]. cbn in Hpage. injection Hpage as <-. reflexivity. }
  right. split; [discriminate|].
  assert (Hus : ∃ us, cell "Usuarios" <$> (rec :: data) = VInt <$> us).
  { apply int_column, Forall_forall. intros rec' Hin.
    apply list_elem_of_lookup in Hin as [i Hi].
    destruct (Forall2_lookup_r _ _ _ _ _ Hdata Hi) as (r & _ & Hr).
    eapply pages_record_usuarios, Hr. }
  destruct Hus as [us Hus].
  change (negb (empty (DataFrame_of_dicts ["Título"; "Fuente"; "Usuarios"]%string
                         (rec :: data)))) with true in Hpage.
  unfold getitem in Hpage.
  change (has_column "Usuarios"
            (DataFrame_of_dicts ["Título"; "Fuente"; "Usuarios"]%string (rec :: data)))
    with true in Hpage.
  cbn [mbind result_bind rows DataFrame_of_dicts] in Hpage.
  rewrite Hus in Hpage. unfold series_max in Hpage.
  rewrite traverse_int_cell in Hpage. cbn [mbind result_bind] in Hpage.
  destruct us as [|k ks]; [discriminate|].
  cbn [lift mbind outcome_bind] in Hpage. injection Hpage as <-.
  destruct (foldr_max_spec k ks) as [Hle Hin].
  eexists. split; [reflexivity|]. cbn [rows DataFrame_of_dicts]. split.
  - intros r Hr. apply (list_elem_of_fmap_2 (cell "Usuarios")) in Hr.
    rewrite Hus in Hr. apply list_elem_of_fmap in Hr as (n & Hn & Hnin).
    exists n. split; [exact Hn|]. apply Hle, Hnin.
  - apply (list_elem_of_fmap_2 VInt) in Hin. rewrite <- Hus in Hin.
    apply list_elem_of_fmap in Hin as (r & Hr & Hrin). exists r. auto.
Qed.

End PagesTable.

(** * The further properties on the concrete tables and reports *)

Example informe_horario_frame :
  get_ga4_hourly informe_horario int_digits "123" cinco_de_enero treinta_de_noviembre
  = Returned horas_ordenadas.
Proof. vm_compute. reflexivity. Qed.

Example informe_paginas_frame :
  top_paginas informe_paginas int_digits "123" cinco_de_enero treinta_de_noviembre
  = Returned [subheader_paginas; pages_table paginas 17].
Proof. vm_compute. reflexivity. Qed.

Example format_date_examples :
  format_date cinco_de_enero = "2024-01-05"%string
  ∧ format_date treinta_de_noviembre = "2024-11-30"%string.
Proof. split; vm_compute; reflexivity. Qed.

Lemma filterByDateRange_monotone_witness :
  ymd 2023 12 1 ≤ ymd 2024 1 1
  ∧ ymd 2024 1 3 ≤ ymd 2024 3 1
  ∧ filterByDateRange iso_parser created_at registros (ymd 2024 1 1) (ymd 2024 1 3)
    = Ok (registros_normalizados, registros_enero)
  ∧ ∃ out',
      filterByDateRange iso_parser created_at registros (ymd 2023 12 1) (ymd 2024 3 1)
      = Ok (registros_normalizados, out')
      ∧ sublist (rows registros_enero) (rows out').
Proof.
  assert (Hs : ymd 2023 12 1 ≤ ymd 2024 1 1) by (vm_compute; discriminate).
  assert (He : ymd 2024 1 3 ≤ ymd 2024 3 1) by (vm_compute; discriminate).
  assert (Hrun : filterByDateRange iso_parser created_at registros
                   (ymd 2024 1 1) (ymd 2024 1 3)
                 = Ok (registros_normalizados, registros_enero))
    by (vm_compute; reflexivity).
  exact (conj Hs (conj He (conj Hrun
    (filterByDateRange_monotone iso_parser created_at registros
       (ymd 2024 1 1) (ymd 2024 1 3) (ymd 2023 12 1) (ymd 2024 3 1)
       registros_normalizados registros_enero Hs He Hrun)))).
Defined.

Lemma filterByDateRange_compose_witness :
  filterByDateRange iso_parser created_at registros (ymd 2023 12 1) (ymd 2024 1 3)
  = Ok (registros_normalizados, registros_enero)
  ∧ ∃ out12,
      filterByDateRange iso_parser created_at registros_enero (ymd 2024 1 2) (ymd 2024 3 1)
      = Ok (registros_enero, out12)
      ∧ filterByDateRange iso_parser created_at registros
          (Z.max (ymd 2023 12 1) (ymd 2024 1 2)) (Z.min (ymd 2024 1 3) (ymd 2024 3 1))
        = Ok (registros_normalizados, out12).
Proof.
  assert (Hrun : filterByDateRange iso_parser created_at registros
                   (ymd 2023 12 1) (ymd 2024 1 3)
                 = Ok (registros_normalizados, registros_enero))
    by (vm_compute; reflexivity).
  exact (conj Hrun
    (filterByDateRange_compose iso_parser created_at registros
       (ymd 2023 12 1) (ymd 2024 1 3) (ymd 2024 1 2) (ymd 2024 3 1)
       registros_normalizados registros_enero Hrun)).
Defined.

Lemma filterByDateRange_adjacent_witness :
  has_column created_at registros = true
  ∧ ymd 2024 1 1 - 1 ≤ ymd 2024 1 1 ≤ ymd 2024 1 3
  ∧ filterByDateRange iso_parser created_at registros (ymd 2024 1 1) (ymd 2024 1 3)
    = Ok (registros_normalizados, registros_enero)
  ∧ ∃ a b,
      filterByDateRange iso_parser created_at registros (ymd 2024 1 1) (ymd 2024 1 1)
      = Ok (registros_normalizados, a)
      ∧ filterByDateRange iso_parser created_at registros (ymd 2024 1 1 + 1) (ymd 2024 1 3)
        = Ok (registros_normalizados, b)
      ∧ (∀ r, r ∈ rows a → r ∉ rows b)
      ∧ (len a + len b)%nat = len registros_enero.
Proof.
  assert (Hcol : has_column created_at registros = true) by reflexivity.
  assert (Hm : ymd 2024 1 1 - 1 ≤ ymd 2024 1 1 ≤ ymd 2024 1 3)
    by (vm_compute; split; discriminate).
  assert (Hrun : filterByDateRange iso_parser created_at registros
                   (ymd 2024 1 1) (ymd 2024 1 3)
                 = Ok (registros_normalizados, registros_enero))
    by (vm_compute; reflexivity).
  exact (conj Hcol (conj Hm (conj Hrun
    (filterByDateRange_adjacent iso_parser created_at registros
       (ymd 2024 1 1) (ymd 2024 1 1) (ymd 2024 1 3)
       registros_normalizados registros_enero Hcol Hm Hrun)))).
Defined.

Lemma explorador_page_consistent_witness :
  has_column created_at registros = true
  ∧ explorador_de_registros iso_parser registros (ymd 2024 1 1) (ymd 2024 1 3)
    = Ok [ info 3 (ymd 2024 1 1) (ymd 2024 1 3); subheader;
           bar_chart [(ymd 2024 1 1, 2%nat); (ymd 2024 1 3, 1%nat)];
           dataframe registros_enero ]
  ∧ ∃ df1 dff,
      df_filtered iso_parser created_at registros (ymd 2024 1 1) (ymd 2024 1 3)
      = Ok (df1, dff)
      ∧ columns dff = columns registros
      ∧ ((rows dff = []
          ∧ [ info 3 (ymd 2024 1 1) (ymd 2024 1 3); subheader;
              bar_chart [(ymd 2024 1 1, 2%nat); (ymd 2024 1 3, 1%nat)];
              dataframe registros_enero ]
            = [info 0 (ymd 2024 1 1) (ymd 2024 1 3); subheader; warning_no_records;
               dataframe dff])
         ∨ (rows dff ≠ []
            ∧ ∃ dc, daily_counts created_at dff = Ok dc
                    ∧ dc ≠ [] ∧ total dc = len dff
                    ∧ [ info 3 (ymd 2024 1 1) (ymd 2024 1 3); subheader;
                        bar_chart [(ymd 2024 1 1, 2%nat); (ymd 2024 1 3, 1%nat)];
                        dataframe registros_enero ]
                      = [info (len dff) (ymd 2024 1 1) (ymd 2024 1 3); subheader;
                         bar_chart dc; dataframe dff])).
Proof.
  assert (Hcol : has_column created_at registros = true) by reflexivity.
  assert (Hpage : explorador_de_registros iso_parser registros (ymd 2024 1 1) (ymd 2024 1 3)
                  = Ok [ info 3 (ymd 2024 1 1) (ymd 2024 1 3); subheader;
                         bar_chart [(ymd 2024 1 1, 2%nat); (ymd 2024 1 3, 1%nat)];
                         dataframe registros_enero ])
    by (vm_compute; reflexivity).
  exact (conj Hcol (conj Hpage
    (explorador_page_consistent iso_parser registros (ymd 2024 1 1) (ymd 2024 1 3) _
       Hcol Hpage))).
Defined.



Lemma daily_counts_within_range_witness :
  has_column created_at registros = true
  ∧ filterByDateRange iso_parser created_at registros (ymd 2024 1 1) (ymd 2024 1 3)
    = Ok (registros_normalizados, registros_enero)
  ∧ ∃ dc,
      daily_counts created_at registros_enero = Ok dc
      ∧ Forall (fun p => ymd 2024 1 1 ≤ p.1 ≤ ymd 2024 1 3) dc
      ∧ Z.of_nat (length dc) ≤ Z.max 0 (ymd 2024 1 3 - ymd 2024 1 1 + 1)
      ∧ (length dc ≤ len registros_enero)%nat.
Proof.
  assert (Hcol : has_column created_at registros = true) by reflexivity.
  assert (Hrun : filterByDateRange iso_parser created_at registros
                   (ymd 2024 1 1) (ymd 2024 1 3)
                 = Ok (registros_normalizados, registros_enero))
    by (vm_compute; reflexivity).
  exact (conj Hcol (conj Hrun
    (daily_counts_within_range iso_parser created_at registros
       (ymd 2024 1 1) (ymd 2024 1 3) registros_normalizados registros_enero Hcol Hrun))).
Defined.

Lemma daily_count_is_one_day_filter_witness :
  has_column created_at registros = true
  ∧ filterByDateRange iso_parser created_at registros (ymd 2024 1 1) (ymd 2024 1 3)
    = Ok (registros_normalizados, registros_enero)
  ∧ ymd 2024 1 1 ≤ ymd 2024 1 1 ≤ ymd 2024 1 3
  ∧ ∃ dc day,
      daily_counts created_at registros_enero = Ok dc
      ∧ filterByDateRange iso_parser created_at registros (ymd 2024 1 1) (ymd 2024 1 1)
        = Ok (registros_normalizados, day)
      ∧ len day = recorded (ymd 2024 1 1) dc.
Proof.
  assert (Hcol : has_column created_at registros = true) by reflexivity.
  assert (Hrun : filterByDateRange iso_parser created_at registros
                   (ymd 2024 1 1) (ymd 2024 1 3)
                 = Ok (registros_normalizados, registros_enero))
    by (vm_compute; reflexivity).
  assert (Hd : ymd 2024 1 1 ≤ ymd 2024 1 1 ≤ ymd 2024 1 3)
    by (vm_compute; split; discriminate).
  exact (conj Hcol (conj Hrun (conj Hd
    (daily_count_is_one_day_filter iso_parser created_at registros
       (ymd 2024 1 1) (ymd 2024 1 3) registros_normalizados registros_enero
       (ymd 2024 1 1) Hcol Hrun Hd)))).
Defined.

Lemma daily_counts_order_independent_witness :
  columns registros_enero_desordenados = columns registros_enero
  ∧ rows registros_enero_desordenados ≡ₚ rows registros_enero
  ∧ daily_counts created_at registros_enero
    = Ok [(ymd 2024 1 1, 2%nat); (ymd 2024 1 3, 1%nat)]
  ∧ daily_counts created_at registros_enero_desordenados
    = Ok [(ymd 2024 1 1, 2%nat); (ymd 2024 1 3, 1%nat)].
Proof.
  assert (Hcols : columns registros_enero_desordenados = columns registros_enero)
    by reflexivity.
  assert (Hperm : rows registros_enero_desordenados ≡ₚ rows registros_enero)
    by (apply (bool_decide_unpack _); vm_compute; exact I).
  assert (Hdc : daily_counts created_at registros_enero
                = Ok [(ymd 2024 1 1, 2%nat); (ymd 2024 1 3, 1%nat)])
    by (vm_compute; reflexivity).
  exact (conj Hcols (conj Hperm (conj Hdc
    (daily_counts_order_independent created_at registros_enero
       registros_enero_desordenados _ Hcols Hperm Hdc)))).
Defined.

Lemma sidebar_error_page_witness :
  sidebar_error (ymd 2024 2 1) (ymd 2024 1 1) = true
  ∧ has_column created_at registros = true
  ∧ explorador_de_registros iso_parser registros (ymd 2024 2 1) (ymd 2024 1 1)
    = Ok [ info 0 (ymd 2024 2 1) (ymd 2024 1 1); subheader; warning_no_records;
           dataframe sin_registros ]
  ∧ [ info 0 (ymd 2024 2 1) (ymd 2024 1 1); subheader; warning_no_records;
      dataframe sin_registros ]
    = [ info 0 (ymd 2024 2 1) (ymd 2024 1 1); subheader; warning_no_records;
        dataframe {| columns := columns registros; rows := [] |} ].
Proof.
  assert (Herr : sidebar_error (ymd 2024 2 1) (ymd 2024 1 1) = true) by reflexivity.
  assert (Hcol : has_column created_at registros = true) by reflexivity.
  assert (Hpage : explorador_de_registros iso_parser registros (ymd 2024 2 1) (ymd 2024 1 1)
                  = Ok [ info 0 (ymd 2024 2 1) (ymd 2024 1 1); subheader;
                         warning_no_records; dataframe sin_registros ])
    by (vm_compute; reflexivity).
  exact (conj Herr (conj Hcol (conj Hpage
    (sidebar_error_page iso_parser registros (ymd 2024 2 1) (ymd 2024 1 1) _
       Herr Hcol Hpage)))).
Defined.

Lemma default_range_chart_witness :
  default_start (ymd 2024 2 10) = Some (ymd 2024 1 11)
  ∧ has_column created_at registros = true
  ∧ filterByDateRange iso_parser created_at registros (ymd 2024 1 11) (ymd 2024 2 10)
    = Ok (registros_normalizados,
          {| columns := ["id"; created_at]%string;
             rows := [registro 5 (at_time (ymd 2024 2 10) 0)] |})
  ∧ sidebar_error (ymd 2024 1 11) (ymd 2024 2 10) = false
  ∧ ∃ dc,
      daily_counts created_at
        {| columns := ["id"; created_at]%string;
           rows := [registro 5 (at_time (ymd 2024 2 10) 0)] |} = Ok dc
      ∧ (length dc ≤ 31)%nat
      ∧ Forall (fun p => ymd 2024 2 10 - 30 ≤ p.1 ≤ ymd 2024 2 10) dc.
Proof.
  assert (Hstart : default_start (ymd 2024 2 10) = Some (ymd 2024 1 11)) by reflexivity.
  assert (Hcol : has_column created_at registros = true) by reflexivity.
  assert (Hrun : filterByDateRange iso_parser created_at registros
                   (ymd 2024 1 11) (ymd 2024 2 10)
                 = Ok (registros_normalizados,
                       {| columns := ["id"; created_at]%string;
                          rows := [registro 5 (at_time (ymd 2024 2 10) 0)] |}))
    by (vm_compute; reflexivity).
  exact (conj Hstart (conj Hcol (conj Hrun
    (default_range_chart iso_parser created_at registros (ymd 2024 2 10) (ymd 2024 1 11)
       _ _ Hstart Hcol Hrun)))).
Defined.

Lemma format_date_iso_witness :
  valid_date cinco_de_enero = true
  ∧ 1000 ≤ year cinco_de_enero
  ∧ ∃ y1 y2 y3 y4 m1 m2 d1 d2,
      format_date cinco_de_enero
      = String.string_of_list_ascii
          [y1; y2; y3; y4; "-"%char; m1; m2; "-"%char; d1; d2]
      ∧ number 0 [y1; y2; y3; y4] = Some (year cinco_de_enero)
      ∧ number 0 [m1; m2] = Some (month cinco_de_enero)
      ∧ number 0 [d1; d2] = Some (day cinco_de_enero)
      ∧ parse_iso (format_date cinco_de_enero)
        = Some (Some (mkTimestamp (toordinal cinco_de_enero) 0 None)).
Proof.
  assert (Hv : valid_date cinco_de_enero = true) by reflexivity.
  assert (Hy : 1000 ≤ year cinco_de_enero) by (vm_compute; discriminate).
  exact (conj Hv (conj Hy (format_date_iso cinco_de_enero Hv Hy))).
Defined.

Lemma format_date_injective_witness :
  valid_date cinco_de_enero = true
  ∧ 1000 ≤ year cinco_de_enero
  ∧ valid_date (mkDate 2024 1 5) = true
  ∧ 1000 ≤ year (mkDate 2024 1 5)
  ∧ format_date cinco_de_enero = format_date (mkDate 2024 1 5)
  ∧ cinco_de_enero = mkDate 2024 1 5.
Proof.
  assert (Hv : valid_date cinco_de_enero = true) by reflexivity.
  assert (Hy : 1000 ≤ year cinco_de_enero) by (vm_compute; discriminate).
  assert (Hv' : valid_date (mkDate 2024 1 5) = true) by reflexivity.
  assert (Hy' : 1000 ≤ year (mkDate 2024 1 5)) by (vm_compute; discriminate).
  assert (Heq : format_date cinco_de_enero = format_date (mkDate 2024 1 5))
    by reflexivity.
  exact (conj Hv (conj Hy (conj Hv' (conj Hy' (conj Heq
    (format_date_injective cinco_de_enero (mkDate 2024 1 5) Hv Hy Hv' Hy' Heq)))))).
Defined.

Lemma get_ga4_hourly_empty_report_witness :
  informe_vacio (hourly_request "123" cinco_de_enero treinta_de_noviembre) = []
  ∧ get_ga4_hourly informe_vacio int_digits "123" cinco_de_enero treinta_de_noviembre
    = Failed (Exn KeyError)
  ∧ patron_horario informe_vacio int_digits "123" cinco_de_enero treinta_de_noviembre
    = Failed (Exn KeyError)
  ∧ columnas informe_vacio int_digits "123" cinco_de_enero treinta_de_noviembre
    = Failed (Exn KeyError).
Proof.
  assert (Hrows : informe_vacio (hourly_request "123" cinco_de_enero treinta_de_noviembre)
                  = []) by reflexivity.
  exact (conj Hrows
    (get_ga4_hourly_empty_report informe_vacio int_digits "123"
       cinco_de_enero treinta_de_noviembre Hrows)).
Defined.

Lemma get_ga4_hourly_sorted_witness :
  get_ga4_hourly informe_horario int_digits "123" cinco_de_enero treinta_de_noviembre
  = Returned horas_ordenadas
  ∧ informe_horario (hourly_request "123" cinco_de_enero treinta_de_noviembre) ≠ []
  ∧ columns horas_ordenadas = ["Hora"; "Usuarios"]%string
  ∧ (∃ data,
       Forall2 (fun r rec => hourly_record int_digits r = Returned rec)
               (informe_horario (hourly_request "123" cinco_de_enero treinta_de_noviembre))
               data
       ∧ rows horas_ordenadas ≡ₚ data)
  ∧ (∃ hs, cell "Hora" <$> rows horas_ordenadas = VInt <$> hs ∧ StronglySorted Z.le hs)
  ∧ patron_horario informe_horario int_digits "123" cinco_de_enero treinta_de_noviembre
    = Returned [subheader_horario; area_chart horas_ordenadas].
Proof.
  assert (Hrun : get_ga4_hourly informe_horario int_digits "123"
                   cinco_de_enero treinta_de_noviembre
                 = Returned horas_ordenadas) by (vm_compute; reflexivity).
  exact (conj Hrun
    (get_ga4_hourly_sorted informe_horario int_digits "123"
       cinco_de_enero treinta_de_noviembre horas_ordenadas Hrun)).
Defined.

Lemma get_ga4_pages_source_empty_report_witness :
  informe_vacio (pages_request "123" cinco_de_enero treinta_de_noviembre) = []
  ∧ get_ga4_pages_source informe_vacio int_digits "123"
      cinco_de_enero treinta_de_noviembre
    = Returned {| columns := []; rows := [] |}
  ∧ top_paginas informe_vacio int_digits "123" cinco_de_enero treinta_de_noviembre
    = Returned [subheader_paginas].
Proof.
  assert (Hrows : informe_vacio (pages_request "123" cinco_de_enero treinta_de_noviembre)
                  = []) by reflexivity.
  exact (conj Hrows
    (get_ga4_pages_source_empty_report informe_vacio int_digits "123"
       cinco_de_enero treinta_de_noviembre Hrows)).
Defined.

Lemma top_paginas_max_value_witness :
  top_paginas informe_paginas int_digits "123" cinco_de_enero treinta_de_noviembre
  = Returned [subheader_paginas; pages_table paginas 17]
  ∧ ∃ df,
      get_ga4_pages_source informe_paginas int_digits "123"
        cinco_de_enero treinta_de_noviembre = Returned df
      ∧ ((rows df = []
          ∧ [subheader_paginas; pages_table paginas 17] = [subheader_paginas])
         ∨ (rows df ≠ []
            ∧ ∃ max_value,
                [subheader_paginas; pages_table paginas 17]
                = [subheader_paginas; pages_table df max_value]
                ∧ (∀ r, r ∈ rows df →
                        ∃ n, cell "Usuarios" r = VInt n ∧ n ≤ max_value)
                ∧ ∃ r, r ∈ rows df ∧ cell "Usuarios" r = VInt max_value)).
Proof.
  assert (Hpage : top_paginas informe_paginas int_digits "123"
                    cinco_de_enero treinta_de_noviembre
                  = Returned [subheader_paginas; pages_table paginas 17])
    by (vm_compute; reflexivity).
  exact (conj Hpage
    (top_paginas_max_value informe_paginas int_digits "123"
       cinco_de_enero treinta_de_noviembre _ Hpage)).
Defined.
